(** * pyright-mcp: the check-execution and normalization engine

    A shallow embedding of [src/pyright_mcp/runner.py] and the properties its
    specification states about it, followed by the command of
    [src/pyright_mcp/cli.py] that runs it and by further properties of both.

    Python values that come out of [json.loads] are modelled by [pyval];
    text is a UTF-8 byte string ([string]); Python integers are [Z]; Python
    floats are IEEE binary64 values ([spec_float] at precision 53);
    exceptions are values of [exn] threaded through the [result] monad; the
    file system and the child process are read through an explicit [World]
    record. *)

From Stdlib Require Import ZArith List String Ascii Bool Lia.
From Stdlib Require Import Sorted Permutation.
From Stdlib Require Import SpecFloat.
From Stdlib Require DecimalString.
Import ListNotations.

Local Open Scope string_scope.
Local Open Scope Z_scope.

(** ** Exceptions and the error monad *)

(** The subclasses of Python's [Exception] that the modelled code can meet. *)
Inductive exn : Type :=
| TypeError
| ValueError
| KeyError
| AttributeError
| OverflowError
| JSONDecodeError
| RecursionError
| NotImplementedError
| OSError.

Inductive result (A : Type) : Type :=
| Ok (a : A)
| Raise (e : exn).

Arguments Ok {A} a.
Arguments Raise {A} e.

Definition bind {A B : Type} (m : result A) (k : A -> result B) : result B :=
  match m with
  | Ok a => k a
  | Raise e => Raise e
  end.

Notation "x <- m ;; k" := (bind m (fun x => k))
  (at level 61, m at next level, right associativity).

Notation "' p <- m ;; k" := (bind m (fun x => let p := x in k))
  (at level 61, p pattern, m at next level, right associativity).

(** [try: ... except Exception: h]. *)
Definition try_except {A : Type} (m : result A) (h : result A) : result A :=
  match m with
  | Ok a => Ok a
  | Raise _ => h
  end.

(** A list comprehension whose element expression may raise. *)
Fixpoint mapM {A B : Type} (f : A -> result B) (l : list A) : result (list B) :=
  match l with
  | [] => Ok []
  | x :: l' => y <- f x ;; ys <- mapM f l' ;; Ok (y :: ys)
  end.

(** ** Python values *)

Definition pyfloat : Type := spec_float.

Definition prec : Z := 53.
Definition emax : Z := 1024.

#[warnings="-register-all"]
Inductive pyval : Type :=
| PNone
| PBool (b : bool)
| PInt (z : Z)
| PFloat (f : pyfloat)
| PStr (s : string)
| PList (l : list pyval)
| PDict (d : list (string * pyval)).

(** A [dict] with [str] keys, in insertion order, keys pairwise distinct. *)
Definition pydict : Type := list (string * pyval).

Fixpoint dict_get (d : pydict) (k : string) : option pyval :=
  match d with
  | [] => None
  | (k', v) :: d' => if String.eqb k k' then Some v else dict_get d' k
  end.

(** [d[k] = v]: an existing key keeps its position. *)
Fixpoint dict_set (d : pydict) (k : string) (v : pyval) : pydict :=
  match d with
  | [] => [(k, v)]
  | (k', v') :: d' =>
      if String.eqb k k' then (k, v) :: d' else (k', v') :: dict_set d' k v
  end.

(** [k in d]. *)
Definition dict_mem (d : pydict) (k : string) : bool :=
  match dict_get d k with
  | Some _ => true
  | None => false
  end.

(** [d.get(k, default)]. *)
Definition dict_get_default (d : pydict) (k : string) (default : pyval) : pyval :=
  match dict_get d k with
  | Some v => v
  | None => default
  end.

(** [d.get(k)]: the default is [None]. *)
Definition dict_get_none (d : pydict) (k : string) : pyval :=
  dict_get_default d k PNone.

(** [isinstance(v, dict)]. *)
Definition as_dict (v : pyval) : option pydict :=
  match v with
  | PDict d => Some d
  | _ => None
  end.

(** [v.get(k, default)] on a value that [cast] claims to be a dict: of the
    values [json.loads] builds only a dict has a [get] attribute. *)
Definition py_get (v : pyval) (k : string) (default : pyval) : result pyval :=
  match v with
  | PDict d => Ok (dict_get_default d k default)
  | _ => Raise AttributeError
  end.

(** Truth value testing, as [x or y] and [if x] use it. *)
Definition truthy (v : pyval) : bool :=
  match v with
  | PNone => false
  | PBool b => b
  | PInt z => negb (z =? 0)
  | PFloat (S754_zero _) => false
  | PFloat _ => true
  | PStr s => negb (String.eqb s "")
  | PList l => match l with [] => false | _ => true end
  | PDict d => match d with [] => false | _ => true end
  end.

(** [x or y]. *)
Definition py_or (x y : pyval) : pyval := if truthy x then x else y.

(** ** Text

    A Python [str] is kept as its UTF-8 encoding.  Comparison of two strings
    by code points is then comparison of their bytes. *)

Definition chars (s : string) : list ascii := list_ascii_of_string s.
Definition text (cs : list ascii) : string := string_of_list_ascii cs.

Definition ord (c : ascii) : Z := Z.of_N (N_of_ascii c).
Definition chr (z : Z) : ascii := ascii_of_N (Z.to_N z).

Definition is_digit (c : ascii) : bool := (48 <=? ord c) && (ord c <=? 57).
Definition digit_value (c : ascii) : Z := ord c - 48.

(** [str.isspace] on the ASCII range: tab, line feed, vertical tab, form
    feed, carriage return, the four separators 0x1c-0x1f, and space. *)
Definition is_space (c : ascii) : bool :=
  ((9 <=? ord c) && (ord c <=? 13)) ||
  ((28 <=? ord c) && (ord c <=? 32)).

Definition is_upper (c : ascii) : bool := (65 <=? ord c) && (ord c <=? 90).

Definition lower_char (c : ascii) : ascii :=
  if is_upper c then chr (ord c + 32) else c.


Fixpoint lstrip (cs : list ascii) : list ascii :=
  match cs with
  | c :: cs' => if is_space c then lstrip cs' else cs
  | [] => []
  end.

Definition rstrip (cs : list ascii) : list ascii := rev (lstrip (rev cs)).

(** [str.strip()] *)
Definition strip (cs : list ascii) : list ascii := rstrip (lstrip cs).

(** [sep.join(l)] *)
Fixpoint join (sep : string) (l : list string) : string :=
  match l with
  | [] => ""
  | [s] => s
  | s :: l' => s ++ sep ++ join sep l'
  end.

(** [s in t] for strings: [s] occurs in [t] as a contiguous block. *)
Definition contains (t s : string) : Prop :=
  exists pre post : string, t = pre ++ s ++ post.

(** [str(z)] for an [int]: decimal digits with a leading minus sign. *)
Definition Z_to_str (z : Z) : string :=
  DecimalString.NilZero.string_of_int (Z.to_int z).

(** *** Numeric literals

    [int(s)] and [float(s)] accept an underscore between two digits and
    nowhere else; the underscores are dropped before the digits are read. *)
Fixpoint drop_underscores (prev : option ascii) (cs : list ascii)
  : option (list ascii) :=
  match cs with
  | [] =>
      match prev with
      | Some "_"%char => None
      | _ => Some []
      end
  | c :: cs' =>
      if Ascii.eqb c "_" then
        match prev with
        | Some p => if is_digit p then drop_underscores (Some c) cs' else None
        | None => None
        end
      else
        match prev with
        | Some "_"%char =>
            if is_digit c
            then option_map (cons c) (drop_underscores (Some c) cs')
            else None
        | _ => option_map (cons c) (drop_underscores (Some c) cs')
        end
  end.

(** The value of a run of decimal digits, most significant first. *)
Fixpoint digits_value (acc : Z) (cs : list ascii) : Z :=
  match cs with
  | [] => acc
  | c :: cs' => digits_value (10 * acc + digit_value c) cs'
  end.

(** Splits off the longest prefix of decimal digits. *)
Fixpoint span_digits (cs : list ascii) : list ascii * list ascii :=
  match cs with
  | c :: cs' =>
      if is_digit c
      then let '(ds, rest) := span_digits cs' in (c :: ds, rest)
      else ([], cs)
  | [] => ([], [])
  end.

(** An optional sign: [true] for minus. *)
Definition split_sign (cs : list ascii) : bool * list ascii :=
  match cs with
  | "-"%char :: cs' => (true, cs')
  | "+"%char :: cs' => (false, cs')
  | _ => (false, cs)
  end.

(** The white space that [int(s)] and [float(s)] skip at both ends of an
    ASCII text: tab, line feed, vertical tab, form feed, carriage return and
    space.  The separators 0x1c-0x1f, which [str.strip] removes, are not
    among them. *)
Definition is_c_space (c : ascii) : bool :=
  ((9 <=? ord c) && (ord c <=? 13)) || (ord c =? 32).

Fixpoint lstrip_by (f : ascii -> bool) (cs : list ascii) : list ascii :=
  match cs with
  | c :: cs' => if f c then lstrip_by f cs' else cs
  | [] => []
  end.

Definition strip_by (f : ascii -> bool) (cs : list ascii) : list ascii :=
  rev (lstrip_by f (rev (lstrip_by f cs))).

(** [sys.get_int_max_str_digits()], at its default: a decimal text with
    more digits is refused by [int]. *)
Definition max_str_digits : Z := 4300.

(** [int(s)] for a [str], base ten, with the digits, signs and white space
    of the ASCII range. *)
Definition int_of_str (s : string) : result Z :=
  match drop_underscores None (strip_by is_c_space (chars s)) with
  | None => Raise ValueError
  | Some cs =>
      let '(neg, body) := split_sign cs in
      match span_digits body with
      | ((_ :: _) as ds, []) =>
          if max_str_digits <? Z.of_nat (List.length ds) then Raise ValueError
          else let n := digits_value 0 ds in Ok (if neg then - n else n)
      | _ => Raise ValueError
      end
  end.

(** ** Floats

    A Python [float] is an IEEE binary64 value.  Conversions from exact
    integers and decimals round to nearest, ties to even, through
    [SpecFloat.binary_normalize]. *)

Definition float_zero : pyfloat := S754_zero false.

(** The binary64 value nearest to [m * 2^e]. *)
Definition float_of_binary (m e : Z) (neg_zero : bool) : pyfloat :=
  binary_normalize prec emax m e neg_zero.

(** The binary64 value nearest to [m / d], for [0 < m] and [0 < d].  The
    quotient is taken with 64 significant bits or more and the remainder is
    folded into one extra low bit, which leaves the rounding unchanged. *)
Definition float_of_ratio (neg : bool) (m d : Z) : pyfloat :=
  let s := Z.max 0 (66 + Z.log2 d - Z.log2 m) in
  let q := Z.shiftl m s / d in
  let sticky := if Z.shiftl m s mod d =? 0 then 0 else 1 in
  let M := 2 * q + sticky in
  float_of_binary (if neg then - M else M) (- s - 1) neg.

(** The binary64 value nearest to [m * 10^e10], for [0 <= m]. *)
Definition float_of_decimal (neg : bool) (m e10 : Z) : pyfloat :=
  if m =? 0 then S754_zero neg
  else if 0 <=? e10
       then let n := m * 10 ^ e10 in
            float_of_binary (if neg then - n else n) 0 neg
       else float_of_ratio neg m (10 ^ (- e10)).

(** [float(z)] for an [int]. *)
Definition float_of_Z (z : Z) : result pyfloat :=
  match float_of_binary z 0 false with
  | S754_infinity _ => Raise OverflowError
  | f => Ok f
  end.

(** [int(f)] for a [float]: truncation toward zero. *)
Definition float_trunc (f : pyfloat) : result Z :=
  match f with
  | S754_zero _ => Ok 0
  | S754_infinity _ => Raise OverflowError
  | S754_nan => Raise ValueError
  | S754_finite s m e =>
      let a := if 0 <=? e then Z.shiftl (Zpos m) e else Z.shiftr (Zpos m) (- e) in
      Ok (if s then - a else a)
  end.

Definition lower_chars (cs : list ascii) : list ascii := map lower_char cs.

Definition chars_eqb (a b : list ascii) : bool :=
  String.eqb (text a) (text b).

(** The exponent part of a decimal literal: empty, or [e]/[E], an optional
    sign and one digit or more. *)
Definition parse_exponent (cs : list ascii) : option Z :=
  match cs with
  | [] => Some 0
  | c :: cs' =>
      if Ascii.eqb (lower_char c) "e" then
        let '(neg, body) := split_sign cs' in
        match span_digits body with
        | ((_ :: _) as ds, []) =>
            let n := digits_value 0 ds in Some (if neg then - n else n)
        | _ => None
        end
      else None
  end.

(** A decimal literal without sign: digits, an optional point and digits, an
    optional exponent, with a digit on at least one side of the point.  The
    result is the mantissa and the power of ten. *)
Definition parse_decimal (cs : list ascii) : option (Z * Z) :=
  let '(ip, rest) := span_digits cs in
  let '(fp, rest') :=
    match rest with
    | "."%char :: r => span_digits r
    | _ => ([], rest)
    end in
  match (ip ++ fp)%list with
  | [] => None
  | ds =>
      match parse_exponent rest' with
      | Some e => Some (digits_value 0 ds, e - Z.of_nat (List.length fp))
      | None => None
      end
  end.

(** [float(s)] for a [str], with the characters of the ASCII range. *)
Definition float_of_str (s : string) : result pyfloat :=
  match drop_underscores None (strip_by is_c_space (chars s)) with
  | None => Raise ValueError
  | Some cs =>
      let '(neg, body) := split_sign cs in
      let word := lower_chars body in
      if chars_eqb word (chars "inf") || chars_eqb word (chars "infinity")
      then Ok (S754_infinity neg)
      else if chars_eqb word (chars "nan") then Ok S754_nan
      else match parse_decimal body with
           | Some (m, e10) => Ok (float_of_decimal neg m e10)
           | None => Raise ValueError
           end
  end.

(** *** [repr] of a float

    The shortest run of decimal digits that reads back as the same float
    (the nearest one to the float when there are several), laid out as
    CPython's [float_repr] does: scientific notation when the decimal point
    falls more than 16 places right or more than 3 places left of the first
    digit. *)

(** A positive finite float [m * 2^e] as a fraction. *)
Definition float_ratio (m : positive) (e : Z) : Z * Z :=
  if 0 <=? e then (Zpos m * 2 ^ e, 1) else (Zpos m, 2 ^ (- e)).

(** [10^j <= num / den] *)
Definition pow10_le (num den j : Z) : bool :=
  if 0 <=? j then 10 ^ j * den <=? num else den <=? num * 10 ^ (- j).

(** The largest [j] with [10^j <= num / den]. *)
Definition decimal_exponent (num den : Z) : Z :=
  let e0 := (Z.log2 num - Z.log2 den) * 30103 / 100000 in
  match find (pow10_le num den) [e0 + 2; e0 + 1; e0; e0 - 1] with
  | Some j => j
  | None => e0 - 2
  end.

(** [floor ((num / den) / 10^p)] *)
Definition scaled_floor (num den p : Z) : Z :=
  if 0 <=? p then num / (den * 10 ^ p) else (num * 10 ^ (- p)) / den.

(** How [num / den] compares with [(c + 1/2) * 10^p]. *)
Definition compare_midpoint (num den c p : Z) : comparison :=
  if 0 <=? p
  then (2 * num ?= (2 * c + 1) * 10 ^ p * den)
  else (2 * num * 10 ^ (- p) ?= (2 * c + 1) * den).

Definition float_eqb (a b : pyfloat) : bool :=
  match a, b with
  | S754_finite s m e, S754_finite s' m' e' =>
      Bool.eqb s s' && Pos.eqb m m' && (e =? e')
  | _, _ => false
  end.

(** Digits [c] and scale [p] with [c * 10^p] the shortest decimal that reads
    back as [f = num / den], trying [n], [n + 1], ... significant digits;
    [k] is the decimal exponent of [f] plus one. *)
Fixpoint shortest_decimal (fuel : nat) (f : pyfloat) (num den k n : Z) : Z * Z :=
  let p := k - n in
  let lo := scaled_floor num den p in
  let hi := lo + 1 in
  let nearest :=
    match compare_midpoint num den lo p with
    | Lt => lo
    | Gt => hi
    | Eq => if Z.even lo then lo else hi
    end in
  match fuel with
  | O => (nearest, p)
  | S fuel' =>
      let ok_lo := float_eqb (float_of_decimal false lo p) f in
      let ok_hi := float_eqb (float_of_decimal false hi p) f in
      if ok_lo && ok_hi then (nearest, p)
      else if ok_lo then (lo, p)
      else if ok_hi then (hi, p)
      else shortest_decimal fuel' f num den k (n + 1)
  end.

Fixpoint drop_zeros (cs : list ascii) : list ascii :=
  match cs with
  | "0"%char :: cs' => drop_zeros cs'
  | _ => cs
  end.

Definition zeros (n : Z) : string := text (repeat "0"%char (Z.to_nat n)).

(** The layout of the digits [ds] with the decimal point [decpt] places to
    the right of their start. *)
Definition layout_float (ds : list ascii) (decpt : Z) : string :=
  let nd := Z.of_nat (List.length ds) in
  if (decpt <=? -4) || (16 <? decpt) then
    let ex := decpt - 1 in
    let mant :=
      match ds with
      | [] => ""
      | [d] => text [d]
      | d :: rest => text (d :: "."%char :: rest)
      end in
    let exs := Z_to_str (Z.abs ex) in
    mant ++ "e" ++ (if ex <? 0 then "-" else "+")
         ++ (if Z.abs ex <? 10 then "0" else "") ++ exs
  else if decpt <=? 0 then
    "0." ++ zeros (- decpt) ++ text ds
  else if nd <=? decpt then
    text ds ++ zeros (decpt - nd) ++ ".0"
  else
    text (firstn (Z.to_nat decpt) ds) ++ "." ++ text (skipn (Z.to_nat decpt) ds).

(** [repr(f)], which is also [str(f)]. *)
Definition float_repr (f : pyfloat) : string :=
  match f with
  | S754_nan => "nan"
  | S754_infinity s => if s then "-inf" else "inf"
  | S754_zero s => if s then "-0.0" else "0.0"
  | S754_finite s m e =>
      let '(num, den) := float_ratio m e in
      let k := decimal_exponent num den + 1 in
      let '(c, p) := shortest_decimal 17 (S754_finite false m e) num den k 1 in
      let all := chars (Z_to_str c) in
      let ds := rev (drop_zeros (rev all)) in
      (if s then "-" else "")
        ++ layout_float ds (Z.of_nat (List.length all) + p)
  end.

(** *** [repr] and [str] *)

Definition hex_digit (n : Z) : ascii :=
  if n <? 10 then chr (48 + n) else chr (87 + n).

Definition has_char (c : ascii) (cs : list ascii) : bool :=
  existsb (Ascii.eqb c) cs.

(** One character inside a string literal quoted with [q].  Bytes above the
    ASCII range belong to code points that are taken to be printable. *)
Definition repr_char (q c : ascii) : list ascii :=
  if Ascii.eqb c q || Ascii.eqb c "\" then ["\"%char; c]
  else if ord c =? 9 then ["\"%char; "t"%char]
  else if ord c =? 10 then ["\"%char; "n"%char]
  else if ord c =? 13 then ["\"%char; "r"%char]
  else if (ord c <? 32) || (ord c =? 127)
       then ["\"%char; "x"%char; hex_digit (ord c / 16); hex_digit (ord c mod 16)]
       else [c].

(** [repr(s)] for a [str]: single quotes, unless the text has a single quote
    and no double quote. *)
Definition str_repr (s : string) : string :=
  let cs := chars s in
  let q := if has_char "'"%char cs && negb (has_char "034"%char cs)
           then "034"%char else "'"%char in
  text (q :: flat_map (repr_char q) cs ++ [q])%list.

Fixpoint py_repr (v : pyval) : string :=
  match v with
  | PNone => "None"
  | PBool b => if b then "True" else "False"
  | PInt z => Z_to_str z
  | PFloat f => float_repr f
  | PStr s => str_repr s
  | PList l => "[" ++ join ", " (map py_repr l) ++ "]"
  | PDict d =>
      "{" ++ join ", "
               (map (fun kv => match kv with
                               | (k, x) => str_repr k ++ ": " ++ py_repr x
                               end) d)
          ++ "}"
  end.

(** [str(v)] *)
Definition py_str (v : pyval) : string :=
  match v with
  | PStr s => s
  | _ => py_repr v
  end.

(** [isinstance(v, str)] *)
Definition as_str (v : pyval) : option string :=
  match v with
  | PStr s => Some s
  | _ => None
  end.

(** [int(v)] *)
Definition py_int (v : pyval) : result Z :=
  match v with
  | PInt z => Ok z
  | PBool b => Ok (if b then 1 else 0)
  | PFloat f => float_trunc f
  | PStr s => int_of_str s
  | PNone | PList _ | PDict _ => Raise TypeError
  end.

(** [float(v)] *)
Definition py_float (v : pyval) : result pyfloat :=
  match v with
  | PFloat f => Ok f
  | PInt z => float_of_Z z
  | PBool b => Ok (if b then float_of_binary 1 0 false else float_zero)
  | PStr s => float_of_str s
  | PNone | PList _ | PDict _ => Raise TypeError
  end.

(** ** Paths

    A [pathlib.PosixPath]: the root (empty, one slash, or exactly two) and
    the components that follow it.  Empty components and single dots are
    dropped when a path is built from text. *)

Record Path : Type := { root : string; parts : list string }.

Fixpoint split_on (sep : ascii) (cs : list ascii) : list (list ascii) :=
  match cs with
  | [] => [[]]
  | c :: cs' =>
      match split_on sep cs' with
      | [] => [[]]
      | w :: ws => if Ascii.eqb c sep then [] :: w :: ws else (c :: w) :: ws
      end
  end.

Definition path_root (cs : list ascii) : string :=
  match cs with
  | "/"%char :: "/"%char :: "/"%char :: _ => "/"
  | "/"%char :: "/"%char :: _ => "//"
  | "/"%char :: _ => "/"
  | _ => ""
  end.

Definition is_component (s : string) : bool :=
  negb (String.eqb s "") && negb (String.eqb s ".").

(** [Path(s)] *)
Definition Path_of_str (s : string) : Path :=
  {| root := path_root (chars s);
     parts := filter is_component (map text (split_on "/" (chars s))) |}.

(** [str(p)] *)
Definition Path_str (p : Path) : string :=
  match root p, parts p with
  | "", [] => "."
  | r, ps => r ++ join "/" ps
  end.

(** [p.parent] *)
Definition Path_parent (p : Path) : Path :=
  {| root := root p; parts := removelast (parts p) |}.

(** [p.name] *)
Definition Path_name (p : Path) : string := last (parts p) "".

(** The list that [pathlib] compares and hashes: the root, when there is
    one, then the components. *)
Definition Path_cparts (p : Path) : list string :=
  if String.eqb (root p) "" then parts p else root p :: parts p.

Fixpoint strip_prefix (pre l : list string) : option (list string) :=
  match pre, l with
  | [], _ => Some l
  | x :: pre', y :: l' => if String.eqb x y then strip_prefix pre' l' else None
  | _ :: _, [] => None
  end.

(** [p.relative_to(other)] *)
Definition Path_relative_to (p other : Path) : result Path :=
  match Path_cparts other with
  | [] =>
      if String.eqb (root p) "" then Ok p else Raise ValueError
  | cparts =>
      match strip_prefix cparts (Path_cparts p) with
      | Some rest => Ok {| root := ""; parts := rest |}
      | None => Raise ValueError
      end
  end.

(** Byte-wise comparison of text, which is comparison by code points. *)
Definition str_compare (a b : string) : comparison := String.compare a b.

Definition str_leb (a b : string) : bool :=
  match str_compare a b with
  | Gt => false
  | _ => true
  end.

(** Python's ordering of two lists of [str]. *)
Fixpoint strs_compare (a b : list string) : comparison :=
  match a, b with
  | [], [] => Eq
  | [], _ :: _ => Lt
  | _ :: _, [] => Gt
  | x :: a', y :: b' =>
      match str_compare x y with
      | Eq => strs_compare a' b'
      | c => c
      end
  end.

(** [p <= q] for paths. *)
Definition Path_leb (p q : Path) : bool :=
  match strs_compare (Path_cparts p) (Path_cparts q) with
  | Gt => false
  | _ => true
  end.

(** [p == q] for paths. *)
Definition Path_eqb (p q : Path) : bool :=
  match strs_compare (Path_cparts p) (Path_cparts q) with
  | Eq => true
  | _ => false
  end.

(** ** Shell-style patterns: [fnmatch.fnmatch]

    Patterns and names are matched code point by code point.  [*] matches
    any run, [?] any one code point, [[seq]] a set with ranges and [[!seq]]
    its complement; an opening bracket that is never closed stands for
    itself. *)

(** The code points of UTF-8 text. *)
Fixpoint utf8_decode (need : nat) (acc : Z) (cs : list ascii) : list Z :=
  match cs with
  | [] => []
  | b :: cs' =>
      match need with
      | O =>
          if ord b <? 192 then ord b :: utf8_decode 0 0 cs'
          else if ord b <? 224 then utf8_decode 1 (Z.land (ord b) 31) cs'
          else if ord b <? 240 then utf8_decode 2 (Z.land (ord b) 15) cs'
          else utf8_decode 3 (Z.land (ord b) 7) cs'
      | S O =>
          Z.lor (Z.shiftl acc 6) (Z.land (ord b) 63) :: utf8_decode 0 0 cs'
      | S n =>
          utf8_decode n (Z.lor (Z.shiftl acc 6) (Z.land (ord b) 63)) cs'
      end
  end.

Definition code_points (s : string) : list Z := utf8_decode 0 0 (chars s).

Inductive gtok : Type :=
| GStar
| GAny
| GNever
| GLit (c : Z)
| GSet (neg : bool) (chunks : list (list Z)).

Definition cp_bang : Z := 33.
Definition cp_star : Z := 42.
Definition cp_hyphen : Z := 45.
Definition cp_question : Z := 63.
Definition cp_lbracket : Z := 91.
Definition cp_rbracket : Z := 93.

(** The text of a bracket expression, after the opening bracket: an
    optional [!], an optional closing bracket taken literally, then all up
    to the next closing bracket.  [None] when the bracket is never closed. *)
Fixpoint until_rbracket (cs : list Z) : option (list Z * list Z) :=
  match cs with
  | [] => None
  | c :: cs' =>
      if c =? cp_rbracket then Some ([], cs')
      else match until_rbracket cs' with
           | Some (stuff, rest) => Some (c :: stuff, rest)
           | None => None
           end
  end.

Definition bracket_body (cs : list Z) : option (list Z * list Z) :=
  let '(bang, cs1) :=
    match cs with
    | c :: cs' => if c =? cp_bang then ([c], cs') else ([], cs)
    | [] => ([], cs)
    end in
  let '(lit, cs2) :=
    match cs1 with
    | c :: cs' => if c =? cp_rbracket then ([c], cs') else ([], cs1)
    | [] => ([], cs1)
    end in
  match until_rbracket cs2 with
  | Some (stuff, rest) => Some ((bang ++ lit ++ stuff)%list, rest)
  | None => None
  end.

(** Cuts the body of a set at the hyphens that stand for ranges: a hyphen
    counts once [guard] other characters have gone by since the last cut. *)
Fixpoint range_chunks (cur : list Z) (guard : nat) (l : list Z) : list (list Z) :=
  match l with
  | [] => [rev cur]
  | c :: l' =>
      match guard with
      | O =>
          if c =? cp_hyphen then rev cur :: range_chunks [] 2 l'
          else range_chunks (c :: cur) 0 l'
      | S g => range_chunks (c :: cur) g l'
      end
  end.

(** A hyphen just before the closing bracket is a literal one. *)
Fixpoint close_chunks (cs : list (list Z)) : list (list Z) :=
  match cs with
  | [c; []] => [(c ++ [cp_hyphen])%list]
  | c :: cs' => c :: close_chunks cs'
  | [] => []
  end.

(** Ranges whose start lies above their end are dropped, right to left. *)
Fixpoint drop_empty_ranges (cs : list (list Z)) : list (list Z) :=
  match cs with
  | [] => []
  | c :: rest =>
      match drop_empty_ranges rest with
      | [] => [c]
      | d :: ds =>
          if last c 0 >? hd 0 d
          then (removelast c ++ tl d)%list :: ds
          else c :: d :: ds
      end
  end.

Definition set_token (stuff : list Z) : gtok :=
  let neg := match stuff with c :: _ => c =? cp_bang | [] => false end in
  let chunks :=
    drop_empty_ranges
      (close_chunks (range_chunks [] (if neg then 2%nat else 1%nat) stuff)) in
  match chunks with
  | [] | [[]] => GNever
  | first :: others =>
      if neg then
        match first, others with
        | [_], [] => GAny
        | _, _ => GSet true (tl first :: others)
        end
      else GSet false chunks
  end.

(** [fnmatch.translate], as a list of tokens. *)
Fixpoint translate (fuel : nat) (pat : list Z) : list gtok :=
  match fuel, pat with
  | O, _ | _, [] => []
  | S fuel', c :: pat' =>
      if c =? cp_star then GStar :: translate fuel' pat'
      else if c =? cp_question then GAny :: translate fuel' pat'
      else if c =? cp_lbracket then
        match bracket_body pat' with
        | Some (stuff, rest) => set_token stuff :: translate fuel' rest
        | None => GLit c :: translate fuel' pat'
        end
      else GLit c :: translate fuel' pat'
  end.

Definition cp_mem (c : Z) (l : list Z) : bool := existsb (Z.eqb c) l.

(** Membership in a set: a listed character, or one between the last
    character of a chunk and the first of the next. *)
Fixpoint in_chunks (c : Z) (chunks : list (list Z)) : bool :=
  match chunks with
  | [] => false
  | [a] => cp_mem c a
  | a :: ((b :: _) as rest) =>
      cp_mem c a || ((last a 0 <=? c) && (c <=? hd 0 b)) || in_chunks c rest
  end.

Definition tok_match (t : gtok) (c : Z) : bool :=
  match t with
  | GStar | GAny => true
  | GNever => false
  | GLit c' => c =? c'
  | GSet neg chunks => xorb neg (in_chunks c chunks)
  end.

Fixpoint glob_match (ts : list gtok) (s : list Z) {struct ts} : bool :=
  match ts with
  | [] => match s with [] => true | _ :: _ => false end
  | GStar :: ts' =>
      (fix star (s : list Z) : bool :=
         glob_match ts' s ||
         match s with
         | [] => false
         | _ :: s' => star s'
         end) s
  | t :: ts' =>
      match s with
      | [] => false
      | c :: s' => tok_match t c && glob_match ts' s'
      end
  end.

(** [fnmatch(name, pat)] on a POSIX system, where [normcase] changes nothing. *)
Definition fnmatch (name pat : string) : bool :=
  let p := code_points pat in
  glob_match (translate (List.length p) p) (code_points name).

(** ** JSON: [json.loads]

    The decoder of the standard library, in strict mode: white space is
    space, tab, line feed and carriage return; numbers with a fraction or
    an exponent become floats, others integers; [NaN], [Infinity] and
    [-Infinity] are accepted; a repeated key keeps its first position and
    its last value.  [depth] is how many arrays and objects may still be
    entered before the interpreter raises [RecursionError]. *)

Definition is_json_ws (c : ascii) : bool :=
  (ord c =? 32) || (ord c =? 9) || (ord c =? 10) || (ord c =? 13).

Fixpoint skip_ws (cs : list ascii) : list ascii :=
  match cs with
  | c :: cs' => if is_json_ws c then skip_ws cs' else cs
  | [] => []
  end.

(** [cs] starts with the characters of [lit]. *)
Fixpoint strip_literal (lit cs : list ascii) : option (list ascii) :=
  match lit, cs with
  | [], _ => Some cs
  | x :: lit', c :: cs' => if Ascii.eqb x c then strip_literal lit' cs' else None
  | _ :: _, [] => None
  end.

Definition hex_value (c : ascii) : option Z :=
  if is_digit c then Some (ord c - 48)
  else if (97 <=? ord c) && (ord c <=? 102) then Some (ord c - 87)
  else if (65 <=? ord c) && (ord c <=? 70) then Some (ord c - 55)
  else None.

(** Four hexadecimal digits. *)
Definition hex4 (cs : list ascii) : option (Z * list ascii) :=
  match cs with
  | a :: b :: c :: d :: rest =>
      match hex_value a, hex_value b, hex_value c, hex_value d with
      | Some x, Some y, Some z, Some w =>
          Some (((x * 16 + y) * 16 + z) * 16 + w, rest)
      | _, _, _, _ => None
      end
  | _ => None
  end.

(** The UTF-8 bytes of a code point. *)
Definition utf8_encode (u : Z) : list ascii :=
  if u <? 128 then [chr u]
  else if u <? 2048 then
    [chr (192 + u / 64); chr (128 + u mod 64)]
  else if u <? 65536 then
    [chr (224 + u / 4096); chr (128 + (u / 64) mod 64); chr (128 + u mod 64)]
  else
    [chr (240 + u / 262144); chr (128 + (u / 4096) mod 64);
     chr (128 + (u / 64) mod 64); chr (128 + u mod 64)].

Definition is_high_surrogate (u : Z) : bool := (55296 <=? u) && (u <=? 56319).
Definition is_low_surrogate (u : Z) : bool := (56320 <=? u) && (u <=? 57343).

Definition simple_escape (c : ascii) : option ascii :=
  if Ascii.eqb c "034" || Ascii.eqb c "\" || Ascii.eqb c "/" then Some c
  else if Ascii.eqb c "b" then Some (chr 8)
  else if Ascii.eqb c "f" then Some (chr 12)
  else if Ascii.eqb c "n" then Some (chr 10)
  else if Ascii.eqb c "r" then Some (chr 13)
  else if Ascii.eqb c "t" then Some (chr 9)
  else None.

(** The rest of a string literal, after its opening quote; [acc] holds the
    decoded bytes so far, last first. *)
Fixpoint scan_string (fuel : nat) (acc : list ascii) (cs : list ascii)
  : result (string * list ascii) :=
  match fuel with
  | O => Raise JSONDecodeError
  | S fuel' =>
      match cs with
      | [] => Raise JSONDecodeError
      | c :: cs' =>
          if Ascii.eqb c "034" then Ok (text (rev acc), cs')
          else if Ascii.eqb c "\" then
            match cs' with
            | [] => Raise JSONDecodeError
            | e :: cs'' =>
                if Ascii.eqb e "u" then
                  match hex4 cs'' with
                  | None => Raise JSONDecodeError
                  | Some (u, r1) =>
                      let single :=
                        scan_string fuel' (rev (utf8_encode u) ++ acc)%list r1 in
                      if is_high_surrogate u then
                        match r1 with
                        | "\"%char :: "u"%char :: r2 =>
                            match hex4 r2 with
                            | None => Raise JSONDecodeError
                            | Some (u2, r3) =>
                                if is_low_surrogate u2 then
                                  let j := 65536 + (u - 55296) * 1024 + (u2 - 56320) in
                                  scan_string fuel'
                                    (rev (utf8_encode j) ++ acc)%list r3
                                else single
                            end
                        | _ => single
                        end
                      else single
                  end
                else
                  match simple_escape e with
                  | Some x => scan_string fuel' (x :: acc) cs''
                  | None => Raise JSONDecodeError
                  end
            end
          else if ord c <? 32 then Raise JSONDecodeError
          else scan_string fuel' (c :: acc) cs'
      end
  end.

(** A number: an optional minus, [0] or a digit run without leading zero,
    then a fraction and an exponent when each is complete.  An integer is
    read by [int], which refuses more than [max_str_digits] digits with a
    ValueError. *)
Definition scan_number (cs : list ascii) : result (pyval * list ascii) :=
  let '(neg, body) :=
    match cs with
    | "-"%char :: r => (true, r)
    | _ => (false, cs)
    end in
  let '(ip, r1) :=
    match body with
    | "0"%char :: r => (["0"%char], r)
    | _ => span_digits body
    end in
  match ip with
  | [] => Raise JSONDecodeError
  | _ :: _ =>
      let '(fp, r2) :=
        match r1 with
        | "."%char :: r =>
            match span_digits r with
            | ([], _) => ([], r1)
            | (ds, r') => (ds, r')
            end
        | _ => ([], r1)
        end in
      let '(ex, r3) :=
        match r2 with
        | e :: r =>
            if Ascii.eqb (lower_char e) "e" then
              let '(eneg, r') :=
                match r with
                | "-"%char :: (_ :: _) as t => (true, t)
                | "+"%char :: (_ :: _) as t => (false, t)
                | _ => (false, r)
                end in
              match span_digits r' with
              | ([], _) => (None, r2)
              | (ds, r'') =>
                  let n := digits_value 0 ds in
                  (Some (if eneg then - n else n), r'')
              end
            else (None, r2)
        | [] => (None, r2)
        end in
      match fp, ex with
      | [], None =>
          if max_str_digits <? Z.of_nat (List.length ip) then Raise ValueError
          else
            let n := digits_value 0 ip in
            Ok (PInt (if neg then - n else n), r3)
      | _, _ =>
          let m := digits_value 0 (ip ++ fp)%list in
          let e10 := match ex with Some e => e | None => 0 end
                     - Z.of_nat (List.length fp) in
          Ok (PFloat (float_of_decimal neg m e10), r3)
      end
  end.

Definition dict_of_pairs (pairs : list (string * pyval)) : pydict :=
  fold_left (fun d kv => dict_set d (fst kv) (snd kv)) pairs [].

Definition lit_null : list ascii := chars "null".
Definition lit_true : list ascii := chars "true".
Definition lit_false : list ascii := chars "false".
Definition lit_nan : list ascii := chars "NaN".
Definition lit_inf : list ascii := chars "Infinity".
Definition lit_neg_inf : list ascii := chars "-Infinity".

(** A keyword at the start of [cs], if there is one. *)
Definition scan_keyword (cs : list ascii) : option (pyval * list ascii) :=
  match strip_literal lit_null cs with
  | Some r => Some (PNone, r)
  | None =>
  match strip_literal lit_true cs with
  | Some r => Some (PBool true, r)
  | None =>
  match strip_literal lit_false cs with
  | Some r => Some (PBool false, r)
  | None =>
  match strip_literal lit_nan cs with
  | Some r => Some (PFloat S754_nan, r)
  | None =>
  match strip_literal lit_inf cs with
  | Some r => Some (PFloat (S754_infinity false), r)
  | None =>
  match strip_literal lit_neg_inf cs with
  | Some r => Some (PFloat (S754_infinity true), r)
  | None => None
  end end end end end end.

(** One value at the start of [cs], and what follows it. *)
Fixpoint scan_value (fuel depth : nat) (cs : list ascii) {struct fuel}
  : result (pyval * list ascii) :=
  match fuel with
  | O => Raise RecursionError
  | S fuel' =>
      match cs with
      | [] => Raise JSONDecodeError
      | c :: cs' =>
          if Ascii.eqb c "034" then
            '(s, r) <- scan_string (S (List.length cs')) [] cs' ;;
            Ok (PStr s, r)
          else if Ascii.eqb c "{" then
            match depth with
            | O => Raise RecursionError
            | S depth' =>
                match skip_ws cs' with
                | "}"%char :: r => Ok (PDict [], r)
                | r =>
                    '(pairs, r') <- scan_members fuel' depth' [] r ;;
                    Ok (PDict (dict_of_pairs pairs), r')
                end
            end
          else if Ascii.eqb c "[" then
            match depth with
            | O => Raise RecursionError
            | S depth' =>
                match skip_ws cs' with
                | "]"%char :: r => Ok (PList [], r)
                | r =>
                    '(items, r') <- scan_elems fuel' depth' [] r ;;
                    Ok (PList items, r')
                end
            end
          else
            match scan_keyword cs with
            | Some out => Ok out
            | None => scan_number cs
            end
      end
  end

(** The members of an object, from its first key to its closing brace. *)
with scan_members (fuel depth : nat) (acc : list (string * pyval))
       (cs : list ascii) {struct fuel}
  : result (list (string * pyval) * list ascii) :=
  match fuel with
  | O => Raise RecursionError
  | S fuel' =>
      match cs with
      | "034"%char :: r =>
          '(k, r1) <- scan_string (S (List.length r)) [] r ;;
          match skip_ws r1 with
          | ":"%char :: r2 =>
              '(v, r3) <- scan_value fuel' depth (skip_ws r2) ;;
              match skip_ws r3 with
              | "}"%char :: r4 => Ok (rev ((k, v) :: acc), r4)
              | ","%char :: r4 =>
                  scan_members fuel' depth ((k, v) :: acc) (skip_ws r4)
              | _ => Raise JSONDecodeError
              end
          | _ => Raise JSONDecodeError
          end
      | _ => Raise JSONDecodeError
      end
  end

(** The items of an array, from its first item to its closing bracket. *)
with scan_elems (fuel depth : nat) (acc : list pyval) (cs : list ascii)
       {struct fuel}
  : result (list pyval * list ascii) :=
  match fuel with
  | O => Raise RecursionError
  | S fuel' =>
      '(v, r1) <- scan_value fuel' depth cs ;;
      match skip_ws r1 with
      | "]"%char :: r2 => Ok (rev (v :: acc), r2)
      | ","%char :: r2 => scan_elems fuel' depth (v :: acc) (skip_ws r2)
      | _ => Raise JSONDecodeError
      end
  end.

(** [json.loads(s)] with room for [depth] nested containers. *)
Definition json_loads (depth : nat) (s : string) : result pyval :=
  let cs := chars s in
  '(v, rest) <- scan_value (2 * List.length cs + 2) depth (skip_ws cs) ;;
  match skip_ws rest with
  | [] => Ok v
  | _ :: _ => Raise JSONDecodeError
  end.

(** ** The world outside the program

    What the program reads from its process, the file system and its child
    processes.  One call of [run_check] sees one [World]: two reads of the
    same thing during the call give the same answer. *)

(** How [subprocess.run] ends. *)
Inductive proc_outcome : Type :=
| Completed (returncode : Z) (stdout stderr : string)
| TimeoutExpired
| FileNotFoundError
| SpawnError (e : exn).

Record World : Type := {
  (** [os.environ.get("VIRTUAL_ENV")] *)
  environ_VIRTUAL_ENV : option string;
  (** [sys.prefix], [sys.base_prefix], [sys.executable] *)
  sys_prefix : string;
  sys_base_prefix : string;
  sys_executable : string;
  (** [Path.cwd()] *)
  Path_cwd : Path;
  (** [shutil.which(name)] *)
  shutil_which : string -> option string;
  (** [subprocess.run(cmd, cwd=..., timeout=...)] *)
  subprocess_run : list string -> option string -> Z -> proc_outcome;
  (** [p.exists()], [p.is_dir()], [p.is_file()] *)
  Path_exists : Path -> bool;
  Path_is_dir : Path -> bool;
  Path_is_file : Path -> bool;
  (** [p.resolve()] *)
  Path_resolve : Path -> result Path;
  (** [p.glob(pattern)], in the order the file system yields the matches *)
  Path_glob : Path -> string -> result (list Path);
  (** [p.rglob("*")] *)
  Path_rglob : Path -> list Path;
  (** how many JSON containers may be nested before [RecursionError] *)
  recursion_limit : nat
}.

(** ** The data of [runner.py] *)

Definition SEVERITY_LEVEL : list (string * Z) :=
  [("information", 1); ("warning", 2); ("error", 3)].

(** [table[key]] on a dict literal with integer values. *)
Fixpoint lookup (table : list (string * Z)) (key : string) : result Z :=
  match table with
  | [] => Raise KeyError
  | (k, v) :: table' => if String.eqb key k then Ok v else lookup table' key
  end.

Record RangePos : Type := { line : Z; character : Z }.

Record Range : Type := { start : RangePos; end_ : RangePos }.

Record DiagnosticOut : Type := {
  file : string;
  range : Range;
  severity : string;
  severity_level : Z;
  message : string;
  rule : option string;
  code : option string
}.

Record SummaryOut : Type := {
  files_analyzed : Z;
  error_count : Z;
  warning_count : Z;
  information_count : Z;
  time_sec : pyfloat
}.

Record VersionInfo : Type := {
  version : string;
  executable_path : string;
  supports_outputjson : bool
}.

Record CheckResult : Type := {
  ok : bool;
  fail_reason : option string;
  command : list string;
  exit_code : Z;
  summary : SummaryOut;
  diagnostics : list DiagnosticOut;
  pyright_version : string;
  analyzed_root : string;
  checked_paths : list string;
  venv_path : string
}.

Record PyrightCheckParams : Type := {
  target : string;
  cwd : option string;
  include : option (list string);
  exclude : option (list string);
  extra_args : option (list string);
  timeout_sec : Z;
  fail_on_severity : string
}.

(** The defaults of the dataclass. *)
Definition default_params : PyrightCheckParams :=
  {| target := "."; cwd := None; include := None; exclude := None;
     extra_args := None; timeout_sec := 60; fail_on_severity := "none" |}.

(** [if s:] for an optional string, [if l:] for an optional list. *)
Definition nonempty_str (s : option string) : option string :=
  match s with
  | Some "" | None => None
  | Some x => Some x
  end.

Definition nonempty_list {A : Type} (l : option (list A)) : option (list A) :=
  match l with
  | Some [] | None => None
  | Some x => Some x
  end.

(** ** The functions of [runner.py] *)

(** [parse_pyright_json(text)]: every exception of the decoder is caught. *)
Definition parse_pyright_json (w : World) (text : string) : result (option pydict) :=
  match json_loads (recursion_limit w) text with
  | Raise _ => Ok None
  | Ok obj =>
      match as_dict obj with
      | None => Ok None
      | Some d =>
          if negb (dict_mem d "summary") || negb (dict_mem d "generalDiagnostics")
          then Ok None
          else Ok (Some d)
      end
  end.

(** Word characters of the ASCII range, as [\b] sees them. *)
Definition is_word (c : ascii) : bool :=
  is_digit c || is_upper c || ((97 <=? ord c) && (ord c <=? 122)) || Ascii.eqb c "_".

(** [\d+\.\d+\.\d+] at the start of [cs]: the match and what follows it. *)
Definition match_semver (cs : list ascii) : option (list ascii * list ascii) :=
  match span_digits cs with
  | ((_ :: _) as d1, "."%char :: r1) =>
      match span_digits r1 with
      | ((_ :: _) as d2, "."%char :: r2) =>
          match span_digits r2 with
          | ((_ :: _) as d3, r3) =>
              Some ((d1 ++ "."%char :: d2 ++ "."%char :: d3)%list, r3)
          | _ => None
          end
      | _ => None
      end
  | _ => None
  end.

(** [re.search(r"\b(\d+\.\d+\.\d+)\b", s)]: the leftmost match; [prev_word]
    tells whether the character before [cs] is a word character. *)
Fixpoint search_semver (prev_word : bool) (cs : list ascii) : option (list ascii) :=
  match cs with
  | [] => None
  | c :: cs' =>
      let here :=
        if prev_word then None
        else match match_semver cs with
             | Some (m, []) => Some m
             | Some (m, x :: _) => if is_word x then None else Some m
             | None => None
             end in
      match here with
      | Some m => Some m
      | None => search_semver (is_word c) cs'
      end
  end.

Definition _parse_version_string (s : string) : string :=
  match search_semver false (chars s) with
  | Some m => text m
  | None => text (strip (chars s))
  end.

(** [re.match(r"^\d+\.\d+\.\d+$", version)]: the dollar also matches just
    before a final line feed. *)
Definition _supports_outputjson (version : string) : bool :=
  match match_semver (chars version) with
  | Some (_, []) => true
  | Some (_, [c]) => ord c =? 10
  | _ => false
  end.

Definition resolved_str (w : World) (s : string) : result string :=
  p <- Path_resolve w (Path_of_str s) ;; Ok (Path_str p).

Definition _detect_venv_path (w : World) : string :=
  match nonempty_str (environ_VIRTUAL_ENV w) with
  | Some env =>
      match resolved_str w env with
      | Ok s => s
      | Raise _ => env
      end
  | None =>
      let in_venv :=
        negb (String.eqb (sys_prefix w) "") &&
        negb (String.eqb (sys_base_prefix w) "") &&
        negb (String.eqb (sys_prefix w) (sys_base_prefix w)) in
      let of_venv :=
        if in_venv then
          match resolved_str w (sys_prefix w) with
          | Ok s => Some s
          | Raise _ => None
          end
        else None in
      match of_venv with
      | Some s => s
      | None =>
          match resolved_str w (sys_prefix w) with
          | Ok s => s
          | Raise _ => Path_str (Path_cwd w)
          end
      end
  end.

Definition _build_pyright_argv (w : World) : list string * string :=
  match nonempty_str (shutil_which w "pyright") with
  | Some exe => ([exe], exe)
  | None =>
      match subprocess_run w [sys_executable w; "-m"; "pyright"; "--version"] None 10 with
      | Completed rc out _ =>
          if (rc =? 0) && negb (String.eqb out "")
          then ([sys_executable w; "-m"; "pyright"], sys_executable w ++ " -m pyright")
          else ([], "")
      | _ => ([], "")
      end
  end.

Definition get_pyright_version (w : World) : VersionInfo :=
  let '(argv, display) := _build_pyright_argv w in
  match argv with
  | [] => {| version := ""; executable_path := ""; supports_outputjson := false |}
  | argv0 :: _ =>
      let shown := if String.eqb display "" then argv0 else display in
      match subprocess_run w (argv ++ ["--version"])%list None 10 with
      | Completed _ out _ =>
          let ver := _parse_version_string out in
          {| version := ver; executable_path := shown;
             supports_outputjson := _supports_outputjson ver |}
      | _ =>
          {| version := ""; executable_path := shown; supports_outputjson := false |}
      end
  end.

(** *** Sets of paths

    A [set] of paths is kept as a list without repetition, in the order the
    paths were first added.  Python leaves the iteration order of a set
    open; [run_check] sorts every set before it uses it. *)
Definition set_add (p : Path) (s : list Path) : list Path :=
  if existsb (Path_eqb p) s then s else (s ++ [p])%list.

(** [set(l)] *)
Definition py_set (l : list Path) : list Path :=
  fold_left (fun s p => set_add p s) l [].

(** [for f in p.rglob("*"): if f.is_file(): found.add(f.resolve())] *)
Fixpoint add_files (w : World) (found : list Path) (fs : list Path)
  : result (list Path) :=
  match fs with
  | [] => Ok found
  | f :: fs' =>
      if Path_is_file w f
      then r <- Path_resolve w f ;; add_files w (set_add r found) fs'
      else add_files w found fs'
  end.

(** The body of [for p in root.glob(pat)]. *)
Fixpoint add_matches (w : World) (found : list Path) (ps : list Path)
  : result (list Path) :=
  match ps with
  | [] => Ok found
  | p :: ps' =>
      if Path_is_file w p then
        r <- Path_resolve w p ;; add_matches w (set_add r found) ps'
      else if Path_is_dir w p then
        found' <- add_files w found (Path_rglob w p) ;;
        add_matches w found' ps'
      else add_matches w found ps'
  end.

(** [for pat in include] *)
Fixpoint expand_includes (w : World) (root : Path) (found : list Path)
  (pats : list string) : result (list Path) :=
  match pats with
  | [] => Ok found
  | pat :: pats' =>
      ps <- Path_glob w root pat ;;
      found' <- add_matches w found ps ;;
      expand_includes w root found' pats'
  end.

Definition is_ValueError (e : exn) : bool :=
  match e with
  | ValueError | JSONDecodeError => true
  | _ => false
  end.

(** [s.replace("\\", "/")] *)
Definition backslash_to_slash (s : string) : string :=
  text (map (fun c => if Ascii.eqb c "\" then "/"%char else c) (chars s)).

(** The root-relative name an exclude pattern is matched against. *)
Definition rel_posix_of (w : World) (relroot p : Path) : result string :=
  match (r <- Path_resolve w p ;;
         rel <- Path_relative_to r relroot ;;
         Ok (backslash_to_slash (Path_str rel))) with
  | Ok s => Ok s
  | Raise e => if is_ValueError e then Ok (Path_name p) else Raise e
  end.

Definition matches_any (rel_posix name : string) (exclude : list string) : bool :=
  existsb (fun ex => fnmatch rel_posix ex || fnmatch name ex) exclude.

Fixpoint filter_excluded (w : World) (relroot : Path) (exclude : list string)
  (paths : list Path) : result (list Path) :=
  match paths with
  | [] => Ok []
  | p :: paths' =>
      rel_posix <- rel_posix_of w relroot p ;;
      rest <- filter_excluded w relroot exclude paths' ;;
      Ok (if matches_any rel_posix (Path_name p) exclude then rest else p :: rest)
  end.

Definition _iter_included_paths (w : World) (root : Path)
  (include exclude : option (list string)) : result (list Path) :=
  paths <- match nonempty_list include with
           | Some pats => expand_includes w root [] pats
           | None => r <- Path_resolve w root ;; Ok [r]
           end ;;
  match nonempty_list exclude with
  | Some exs =>
      relroot <- Path_resolve w root ;;
      filter_excluded w relroot exs paths
  | None => Ok paths
  end.

(** [v in ("information", "warning", "error")]: equality with a [str]
    holds for an equal [str] only. *)
Definition str_in (v : pyval) (l : list string) : option string :=
  match v with
  | PStr s => if existsb (String.eqb s) l then Some s else None
  | _ => None
  end.

(** [int(d.get(key, 0))] on a value that is taken to be a dict. *)
Definition int_field (d : pyval) (key : string) : result Z :=
  v <- py_get d key (PInt 0) ;; py_int v.

Definition _normalize_diag (w : World) (d : pyval) : result DiagnosticOut :=
  file_raw <- py_get d "file" (PStr "") ;;
  let file := py_str file_raw in
  sev_raw <- py_get d "severity" (PStr "information") ;;
  let sev :=
    match str_in sev_raw ["information"; "warning"; "error"] with
    | Some s => s
    | None => "information"
    end in
  rng_raw <- py_get d "range" PNone ;;
  let rng := py_or rng_raw (PDict []) in
  start_raw <- py_get rng "start" PNone ;;
  let start := py_or start_raw (PDict []) in
  end_raw <- py_get rng "end" PNone ;;
  let end' := py_or end_raw (PDict []) in
  file' <- resolved_str w file ;;
  start_line <- int_field start "line" ;;
  start_character <- int_field start "character" ;;
  end_line <- int_field end' "line" ;;
  end_character <- int_field end' "character" ;;
  level <- lookup SEVERITY_LEVEL sev ;;
  message_raw <- py_get d "message" (PStr "") ;;
  rule_val <- py_get d "rule" PNone ;;
  let rule' := as_str rule_val in
  Ok {| file := file';
        range := {| start := {| line := start_line; character := start_character |};
                    end_ := {| line := end_line; character := end_character |} |};
        severity := sev;
        severity_level := level;
        message := py_str message_raw;
        rule := rule';
        code := rule' |}.

(** The [for] loop of [_compute_threshold_ok]: the running maximum, left as
    soon as it reaches the threshold. *)
Fixpoint scan_max (th_val max_sev : Z) (diags : list DiagnosticOut) : Z :=
  match diags with
  | [] => max_sev
  | d :: diags' =>
      let max_sev' := Z.max max_sev (severity_level d) in
      if th_val <=? max_sev' then max_sev' else scan_max th_val max_sev' diags'
  end.

Definition breach_message (threshold : string) (max_sev : Z) : string :=
  "fail_on_severity '" ++ threshold ++ "' breached (max_severity_level="
    ++ Z_to_str max_sev ++ ").".

Definition _compute_threshold_ok (diags : list DiagnosticOut) (threshold : string)
  : result (bool * option string) :=
  if String.eqb threshold "none" then Ok (true, None)
  else
    th_val <- lookup [("information", 1); ("warning", 2); ("error", 3)] threshold ;;
    let max_sev := scan_max th_val 0 diags in
    if (th_val <=? max_sev) && (0 <? max_sev)
    then Ok (false, Some (breach_message threshold max_sev))
    else Ok (true, None).

(** ** Sorting

    [list.sort] and [sorted] are stable: of two items that compare equal the
    one that came first stays first.  Insertion from the right end gives
    that order; [leb x y] stands for [not (y < x)]. *)
Section Sorting.
Context {A : Type} (leb : A -> A -> bool).

Fixpoint insert (x : A) (l : list A) : list A :=
  match l with
  | [] => [x]
  | y :: l' => if leb x y then x :: l else y :: insert x l'
  end.

Fixpoint sort (l : list A) : list A :=
  match l with
  | [] => []
  | x :: l' => insert x (sort l')
  end.
End Sorting.

(** [sorted(l)] for paths. *)
Definition sorted_paths (l : list Path) : list Path := sort Path_leb l.

(** The sort key of a diagnostic:
    [(d["file"], d["range"]["start"]["line"], d["range"]["start"]["character"])]. *)
Definition diag_key (d : DiagnosticOut) : string * Z * Z :=
  (file d, line (start (range d)), character (start (range d))).

(** Python's ordering of tuples: the first components decide unless they
    are equal. *)
Definition lex_compare {A B : Type} (ca : A -> A -> comparison)
  (cb : B -> B -> comparison) (x y : A * B) : comparison :=
  match ca (fst x) (fst y) with
  | Eq => cb (snd x) (snd y)
  | c => c
  end.

Definition key_compare : string * Z * Z -> string * Z * Z -> comparison :=
  lex_compare (lex_compare str_compare Z.compare) Z.compare.

Definition key_leb (a b : string * Z * Z) : bool :=
  match key_compare a b with
  | Gt => false
  | _ => true
  end.

Definition diag_leb (d1 d2 : DiagnosticOut) : bool :=
  key_leb (diag_key d1) (diag_key d2).

(** [diags.sort(key=...)] *)
Definition sort_diags (diags : list DiagnosticOut) : list DiagnosticOut :=
  sort diag_leb diags.

(** ** The orchestrator *)

Definition is_continuation (c : ascii) : bool := (128 <=? ord c) && (ord c <? 192).

(** [len(s)]: the number of code points. *)
Definition str_len (s : string) : nat :=
  List.length (filter (fun c => negb (is_continuation c)) (chars s)).

Fixpoint drop_continuations (cs : list ascii) : list ascii :=
  match cs with
  | c :: cs' => if is_continuation c then drop_continuations cs' else cs
  | [] => []
  end.

(** [s[n:]] on the bytes of [s], for a count [n] of code points. *)
Fixpoint drop_code_points (n : nat) (cs : list ascii) : list ascii :=
  match n, cs with
  | O, _ => cs
  | S _, [] => []
  | S n', _ :: cs' => drop_code_points n' (drop_continuations cs')
  end.

(** [s[-1000:] if len(s) > 1000 else s] *)
Definition tail_excerpt_of (s : string) : string :=
  if Nat.ltb 1000 (str_len s)
  then text (drop_code_points (str_len s - 1000) (chars s))
  else s.

(** The code points of a [str], each as a [str] of its own. *)
Fixpoint split_code_points (cur : list ascii) (cs : list ascii) : list string :=
  match cs with
  | [] => match cur with [] => [] | _ => [text (rev cur)] end
  | c :: cs' =>
      if is_continuation c then split_code_points (c :: cur) cs'
      else match cur with
           | [] => split_code_points [c] cs'
           | _ => text (rev cur) :: split_code_points [c] cs'
           end
  end.

(** What a [for] loop over a value goes through. *)
Definition py_iter (v : pyval) : result (list pyval) :=
  match v with
  | PList l => Ok l
  | PDict d => Ok (map (fun kv => PStr (fst kv)) d)
  | PStr s => Ok (map PStr (split_code_points [] (chars s)))
  | PNone | PBool _ | PInt _ | PFloat _ => Raise TypeError
  end.

Definition zero_summary : SummaryOut :=
  {| files_analyzed := 0; error_count := 0; warning_count := 0;
     information_count := 0; time_sec := float_zero |}.

(** The result of every branch that ends before diagnostics are read. *)
Definition failed (reason : string) (cmd : list string) (exit : Z)
  (ver root : string) (checked : list string) (venv : string) : CheckResult :=
  {| ok := false; fail_reason := Some reason; command := cmd; exit_code := exit;
     summary := zero_summary; diagnostics := [];
     pyright_version := ver; analyzed_root := root;
     checked_paths := checked; venv_path := venv |}.

(** [target_path.resolve() if target_path.is_dir() else target_path.parent.resolve()] *)
Definition root_for_globs_of (w : World) (target_path : Path) : result Path :=
  if Path_is_dir w target_path
  then Path_resolve w target_path
  else Path_resolve w (Path_parent target_path).

(** The paths handed on: the sorted set of the expansion when include
    patterns are given, the target itself otherwise. *)
Definition paths_to_pass (w : World) (target_path : Path)
  (include : option (list string)) (paths : list Path) : result (list string) :=
  match nonempty_list include with
  | Some _ => Ok (map Path_str (sorted_paths (py_set paths)))
  | None => r <- Path_resolve w target_path ;; Ok [Path_str r]
  end.

Definition normalize_summary (summary_raw : pyval) : result SummaryOut :=
  fa <- int_field summary_raw "filesAnalyzed" ;;
  ec <- int_field summary_raw "errorCount" ;;
  wc <- int_field summary_raw "warningCount" ;;
  ic <- int_field summary_raw "informationCount" ;;
  tv <- py_get summary_raw "timeInSec" (PFloat float_zero) ;;
  ts <- py_float tv ;;
  Ok {| files_analyzed := fa; error_count := ec; warning_count := wc;
        information_count := ic; time_sec := ts |}.

Definition unavailable_reason : string :=
  "Pyright not available (neither 'pyright' executable nor 'python -m pyright'). "
  ++ "Install via pipx: 'pipx install pyright-mcp' (bundles pyright), "
  ++ "or add pyright to your environment.".

Definition timeout_reason (timeout_sec : Z) : string :=
  "Timeout after " ++ Z_to_str timeout_sec ++ "s while running Pyright. "
  ++ "Try increasing timeout_sec, reducing include scope, or enabling Pyright caching.".

Definition spawn_reason : string :=
  "Failed to execute Pyright. Ensure 'pyright' is installed and on PATH.".

Definition newline : string := String (chr 10) EmptyString.

Definition parse_reason (tail_excerpt : string) : string :=
  "Failed to parse Pyright JSON output. Consider upgrading Pyright or "
  ++ "checking CLI arguments. Output tail:" ++ newline ++ tail_excerpt.

Definition run_check (w : World) (params : PyrightCheckParams) : result CheckResult :=
  let venv_path := _detect_venv_path w in
  let target_path := Path_of_str (target params) in
  if negb (Path_exists w target_path) then
    analyzed_root <-
      Path_resolve w
        match nonempty_str (cwd params) with
        | Some c => Path_of_str c
        | None => Path_parent target_path
        end ;;
    Ok (failed ("Target path not found: " ++ Path_str target_path) [] 4
               (version (get_pyright_version w)) (Path_str analyzed_root)
               [] venv_path)
  else
    analyzed_root <-
      match nonempty_str (cwd params) with
      | Some c => Path_resolve w (Path_of_str c)
      | None => root_for_globs_of w target_path
      end ;;
    root_for_globs_checked <- root_for_globs_of w target_path ;;
    paths_for_checked <-
      _iter_included_paths w root_for_globs_checked (include params) (exclude params) ;;
    checked_paths <- paths_to_pass w target_path (include params) paths_for_checked ;;
    let version_info := get_pyright_version w in
    let '(argv_prefix, display_exe) := _build_pyright_argv w in
    match argv_prefix with
    | [] =>
        Ok (failed unavailable_reason [] (-1) "" (Path_str analyzed_root)
                   checked_paths venv_path)
    | _ :: _ =>
        let argv :=
          (argv_prefix ++ ["--outputjson"] ++
           match nonempty_list (extra_args params) with
           | Some extra => extra
           | None => []
           end)%list in
        root_for_globs <- root_for_globs_of w target_path ;;
        paths <- _iter_included_paths w root_for_globs (include params) (exclude params) ;;
        path_args <- paths_to_pass w target_path (include params) paths ;;
        let cmd := (argv ++ path_args)%list in
        match subprocess_run w cmd (Some (Path_str analyzed_root)) (timeout_sec params) with
        | TimeoutExpired =>
            Ok (failed (timeout_reason (timeout_sec params)) cmd (-1)
                       (version version_info) (Path_str analyzed_root)
                       checked_paths venv_path)
        | FileNotFoundError =>
            Ok (failed spawn_reason cmd (-1)
                       (version version_info) (Path_str analyzed_root)
                       checked_paths venv_path)
        | SpawnError e => Raise e
        | Completed returncode raw_output stderr =>
            parsed <- parse_pyright_json w raw_output ;;
            match parsed with
            | None =>
                let tail := text (strip (chars (raw_output ++ newline ++ stderr))) in
                Ok (failed (parse_reason (tail_excerpt_of tail)) cmd returncode
                           (version version_info) (Path_str analyzed_root)
                           checked_paths venv_path)
            | Some parsed =>
                let diags_raw :=
                  py_or (dict_get_default parsed "generalDiagnostics" (PList []))
                        (PList []) in
                items <- py_iter diags_raw ;;
                normalized <- mapM (_normalize_diag w) items ;;
                let diags := sort_diags normalized in
                let summary_raw :=
                  py_or (dict_get_default parsed "summary" (PDict [])) (PDict []) in
                summary <- normalize_summary summary_raw ;;
                '(ok, reason) <- _compute_threshold_ok diags (fail_on_severity params) ;;
                Ok {| ok := ok;
                      fail_reason := reason;
                      command := cmd;
                      exit_code := returncode;
                      summary := summary;
                      diagnostics := diags;
                      pyright_version :=
                        py_str (py_or (dict_get_none parsed "version")
                                      (PStr (version version_info)));
                      analyzed_root := Path_str analyzed_root;
                      checked_paths := checked_paths;
                      venv_path := venv_path |}
            end
        end
    end.

(** ** The command line

    [cli.py]: the command that runs one check, prints the result as one
    line of JSON and ends with an exit status. *)














(** ** A sample world

    A file system without symbolic links, given by the list of its files,
    with [pyright] installed at a fixed place and a fixed text on its
    standard output.  It serves to run the model on concrete requests. *)
Module Sample.

(** Components with [..] folded away, as [resolve] does when no link is
    in the way. *)
Fixpoint fold_dotdot (done todo : list string) : list string :=
  match todo with
  | [] => rev done
  | c :: todo' =>
      if String.eqb c ".."
      then fold_dotdot (tl done) todo'
      else fold_dotdot (c :: done) todo'
  end.

Definition resolve (cwd p : Path) : Path :=
  if String.eqb (root p) ""
  then {| root := root cwd; parts := fold_dotdot [] (parts cwd ++ parts p) |}
  else {| root := root p; parts := fold_dotdot [] (parts p) |}.

Definition is_file (files : list Path) (cwd p : Path) : bool :=
  existsb (Path_eqb (resolve cwd p)) files.

(** A directory is a proper prefix of the path of a file. *)
Definition is_dir (files : list Path) (cwd p : Path) : bool :=
  let q := resolve cwd p in
  existsb (fun f =>
             match strip_prefix (Path_cparts q) (Path_cparts f) with
             | Some (_ :: _) => true
             | _ => false
             end) files.

(** The files below a directory. *)
Definition below (files : list Path) (cwd p : Path) : list Path :=
  let q := resolve cwd p in
  filter (fun f =>
            match strip_prefix (Path_cparts q) (Path_cparts f) with
            | Some (_ :: _) => true
            | _ => false
            end) files.

(** Text with each single quote turned into a double quote. *)
Definition quoted (s : string) : string :=
  text (map (fun c => if Ascii.eqb c "'" then "034"%char else c) (chars s)).

Definition pyright_exe : string := "/usr/bin/pyright".

Definition cwd : Path := Path_of_str "/work".

(** [files] are the files there are; a glob yields those of [globbed] that
    exist; a run of pyright ends with [exit] and prints [out]. *)
Definition world (files globbed : list string) (exit : Z) (out : string) : World :=
  let fs := map Path_of_str files in
  {| environ_VIRTUAL_ENV := None;
     sys_prefix := "/usr";
     sys_base_prefix := "/usr";
     sys_executable := "/usr/bin/python3";
     Path_cwd := cwd;
     shutil_which := fun name =>
       if String.eqb name "pyright" then Some pyright_exe else None;
     subprocess_run := fun cmd _ _ =>
       match cmd with
       | [_; "--version"] => Completed 0 ("pyright 1.1.405" ++ newline) ""
       | _ => Completed exit out ""
       end;
     Path_exists := fun p => is_file fs cwd p || is_dir fs cwd p;
     Path_is_dir := is_dir fs cwd;
     Path_is_file := is_file fs cwd;
     Path_resolve := fun p => Ok (resolve cwd p);
     Path_glob := fun _ _ =>
       Ok (filter (fun p => is_file fs cwd p || is_dir fs cwd p)
                  (map Path_of_str globbed));
     Path_rglob := below fs cwd;
     recursion_limit := 1000 |}.

End Sample.

(** * Definitions for the statements

    The orders, the readings of raw values and the sample inputs that the
    properties below are stated with. *)

(** ** Orders *)

(** [leb a b] read as a proposition. *)
Definition le_of {A : Type} (leb : A -> A -> bool) (a b : A) : Prop :=
  leb a b = true.

(** A comparison that decides equality, is antisymmetric and transitive. *)
Class TotalOrder {A : Type} (cmp : A -> A -> comparison) : Prop := {
  cmp_eq : forall a b, cmp a b = Eq <-> a = b;
  cmp_antisym : forall a b, cmp b a = CompOpp (cmp a b);
  cmp_trans : forall a b c, cmp a b = Lt -> cmp b c = Lt -> cmp a c = Lt
}.

Arguments cmp_eq {A} cmp {_} a b.
Arguments cmp_antisym {A} cmp {_} a b.
Arguments cmp_trans {A} cmp {_} a b c _ _.

(** [not (b < a)] for a three-way comparison. *)
Definition leb_of {A : Type} (cmp : A -> A -> comparison) (a b : A) : bool :=
  match cmp a b with
  | Gt => false
  | _ => true
  end.

(** [p < q] for paths: component by component. *)
Definition Path_lt (p q : Path) : Prop :=
  strs_compare (Path_cparts p) (Path_cparts q) = Lt.

(** ** Steps through a computation in the error monad *)

(** One step through a computation that is known to end in [Ok]. *)
Ltac step H :=
  match type of H with
  | bind ?m _ = Ok _ =>
      let E := fresh "E" in
      destruct m eqn:E; cbn [bind] in H; [|discriminate H]
  | (if ?b then _ else _) = Ok _ =>
      let E := fresh "E" in destruct b eqn:E
  | (let '(_, _) := ?x in _) = Ok _ =>
      let E := fresh "E" in destruct x eqn:E
  | match ?x with _ => _ end = Ok _ =>
      let E := fresh "E" in destruct x eqn:E; try discriminate H
  end.

Ltac steps H := repeat step H.

(** ** Readings of diagnostics and raw values *)

(** The maximum severity level over a list of diagnostics, [0] when the
    list is empty. *)
Definition max_level (diags : list DiagnosticOut) : Z :=
  fold_right (fun d m => Z.max (severity_level d) m) 0 diags.

(** The first severity level, in list order, at or above a threshold. *)
Fixpoint first_at_or_above (th : Z) (diags : list DiagnosticOut) : option Z :=
  match diags with
  | [] => None
  | d :: diags' =>
      if th <=? severity_level d then Some (severity_level d)
      else first_at_or_above th diags'
  end.

(** The severity that normalization settles on, read off the raw value. *)
Definition severity_of (sev_raw : option pyval) : string :=
  match sev_raw with
  | Some (PStr s) =>
      if existsb (String.eqb s) ["information"; "warning"; "error"]
      then s else "information"
  | _ => "information"
  end.







(** The raw value at [parsed["summary"][key]], when the summary is a
    mapping that has the key. *)
Definition raw_count (parsed : pydict) (key : string) : option pyval :=
  match dict_get parsed "summary" with
  | Some (PDict s) => dict_get s key
  | _ => None
  end.

(** [int(v)] of a raw value, 0 standing in for an absent one. *)
Definition int_of_raw (v : option pyval) : result Z :=
  py_int match v with Some x => x | None => PInt 0 end.

(** [float(v)] of a raw value, 0.0 standing in for an absent one. *)
Definition float_of_raw (v : option pyval) : result pyfloat :=
  py_float match v with Some x => x | None => PFloat float_zero end.

(** ** Requests and worlds *)


(** The same request with other exclude patterns. *)
Definition with_exclude (params : PyrightCheckParams) (ex : option (list string))
  : PyrightCheckParams :=
  {| target := target params; cwd := cwd params; include := include params;
     exclude := ex; extra_args := extra_args params;
     timeout_sec := timeout_sec params;
     fail_on_severity := fail_on_severity params |}.


(** ** Sample inputs *)

(** A diagnostic with nothing but a severity. *)
Definition diag_of_severity (sev : string) (level : Z) : DiagnosticOut :=
  {| file := "/work/proj/a.py";
     range := {| start := {| line := 0; character := 0 |};
                 end_ := {| line := 0; character := 0 |} |};
     severity := sev; severity_level := level; message := "";
     rule := None; code := None |}.

(** A report as pyright prints it: two errors in [b.py], then a warning in
    [a.py]; one error and one warning counted. *)
Definition sample_report : string :=
  Sample.quoted
    ("{'version': '1.1.405', 'generalDiagnostics': ["
     ++ "{'file': '/work/proj/b.py', 'severity': 'error', 'message': 'boom', "
     ++ "'range': {'start': {'line': 5, 'character': 2}, "
     ++ "'end': {'line': 5, 'character': 9}}, 'rule': 'reportAssignmentType'}, "
     ++ "{'file': '/work/proj/b.py', 'severity': 'error', 'message': 'bang', "
     ++ "'range': {'start': {'line': 2, 'character': 0}, "
     ++ "'end': {'line': 2, 'character': 4}}, 'rule': 'reportCallIssue'}, "
     ++ "{'file': '/work/proj/a.py', 'severity': 'warning', 'message': 'hm', "
     ++ "'range': {'start': {'line': 1, 'character': 0}, "
     ++ "'end': {'line': 1, 'character': 3}}}], "
     ++ "'summary': {'filesAnalyzed': 2, 'errorCount': 1, 'warningCount': 1, "
     ++ "'informationCount': 0, 'timeInSec': 0.25}}").

(** A project with a module and a package of the same name, which are what
    a glob yields there (as for the pattern [pkg*]); pyright ends with exit
    code 1 and prints [sample_report]. *)
Definition sample_world : World :=
  Sample.world
    ["/work/proj/a.py"; "/work/proj/b.py"; "/work/proj/pkg.py";
     "/work/proj/pkg/mod.py"]
    ["/work/proj/pkg.py"; "/work/proj/pkg"]
    1 sample_report.

(** The mapping that [sample_report] decodes to. *)
Definition sample_parsed : pydict :=
  Eval vm_compute in
    match parse_pyright_json sample_world sample_report with
    | Ok (Some d) => d
    | _ => []
    end.

(** A raw diagnostic whose [code] differs from its [rule]. *)
Definition raw_error : pyval :=
  PDict [("file", PStr "proj/b.py");
         ("severity", PStr "error");
         ("message", PStr "boom");
         ("range", PDict [("start", PDict [("line", PInt 5); ("character", PInt 2)]);
                          ("end", PDict [("line", PInt 5); ("character", PInt 9)])]);
         ("rule", PStr "reportAssignmentType");
         ("code", PStr "E1")].

(** What [raw_error] normalizes to in the sample world. *)
Definition norm_error : DiagnosticOut :=
  {| file := "/work/proj/b.py";
     range := {| start := {| line := 5; character := 2 |};
                 end_ := {| line := 5; character := 9 |} |};
     severity := "error";
     severity_level := 3;
     message := "boom";
     rule := Some "reportAssignmentType";
     code := Some "reportAssignmentType" |}.





(** A request on the sample project without include patterns. *)
Definition sample_request : PyrightCheckParams :=
  {| target := "proj"; cwd := None; include := None; exclude := Some ["*"];
     extra_args := None; timeout_sec := 60; fail_on_severity := "information" |}.

(** The diagnostics of [sample_report], normalized and sorted. *)
Definition sample_diagnostics : list DiagnosticOut :=
  [{| file := "/work/proj/a.py";
      range := {| start := {| line := 1; character := 0 |};
                  end_ := {| line := 1; character := 3 |} |};
      severity := "warning"; severity_level := 2; message := "hm";
      rule := None; code := None |};
   {| file := "/work/proj/b.py";
      range := {| start := {| line := 2; character := 0 |};
                  end_ := {| line := 2; character := 4 |} |};
      severity := "error"; severity_level := 3; message := "bang";
      rule := Some "reportCallIssue"; code := Some "reportCallIssue" |};
   {| file := "/work/proj/b.py";
      range := {| start := {| line := 5; character := 2 |};
                  end_ := {| line := 5; character := 9 |} |};
      severity := "error"; severity_level := 3; message := "boom";
      rule := Some "reportAssignmentType";
      code := Some "reportAssignmentType" |}].

(** The result of [sample_request]. *)
Definition sample_result : CheckResult :=
  {| ok := false;
     fail_reason :=
       Some "fail_on_severity 'information' breached (max_severity_level=2).";
     command := ["/usr/bin/pyright"; "--outputjson"; "/work/proj"];
     exit_code := 1;
     summary := {| files_analyzed := 2; error_count := 1; warning_count := 1;
                   information_count := 0;
                   time_sec := S754_finite false 4503599627370496 (-54) |};
     diagnostics := sample_diagnostics;
     pyright_version := "1.1.405";
     analyzed_root := "/work/proj";
     checked_paths := ["/work/proj"];
     venv_path := "/usr" |}.

(** A request with an include pattern on the sample project: the glob
    yields the module [pkg.py] and the package [pkg], whose one file is
    [pkg/mod.py]. *)
Definition sample_include : PyrightCheckParams :=
  {| target := "proj"; cwd := None; include := Some ["pkg*"]; exclude := None;
     extra_args := None; timeout_sec := 60; fail_on_severity := "none" |}.

(** The result of [sample_include]. *)
Definition sample_include_result : CheckResult :=
  {| ok := true;
     fail_reason := None;
     command := ["/usr/bin/pyright"; "--outputjson";
                 "/work/proj/pkg/mod.py"; "/work/proj/pkg.py"];
     exit_code := 1;
     summary := summary sample_result;
     diagnostics := sample_diagnostics;
     pyright_version := "1.1.405";
     analyzed_root := "/work/proj";
     checked_paths := ["/work/proj/pkg/mod.py"; "/work/proj/pkg.py"];
     venv_path := "/usr" |}.

(** ** Further readings and sample worlds *)

(** The verdict alone of a threshold evaluation. *)
Definition verdict_of (res : result (bool * option string)) : result bool :=
  match res with
  | Ok (b, _) => Ok b
  | Raise e => Raise e
  end.

(** The keys of a raw diagnostic that normalization reads. *)
Definition diag_keys : list string :=
  ["file"; "severity"; "range"; "message"; "rule"].

(** Whether an exclude pattern matches a path of the expansion, by its
    root-relative name or by its bare name. *)
Definition is_excluded (w : World) (relroot : Path) (exs : list string) (p : Path)
  : bool :=
  match rel_posix_of w relroot p with
  | Ok rel => matches_any rel (Path_name p) exs
  | Raise _ => false
  end.

(** The same request with other include patterns, working directory or
    pass-through arguments. *)
Definition with_include (params : PyrightCheckParams) (inc : option (list string))
  : PyrightCheckParams :=
  {| target := target params; cwd := cwd params; include := inc;
     exclude := exclude params; extra_args := extra_args params;
     timeout_sec := timeout_sec params;
     fail_on_severity := fail_on_severity params |}.

Definition with_cwd (params : PyrightCheckParams) (c : option string)
  : PyrightCheckParams :=
  {| target := target params; cwd := c; include := include params;
     exclude := exclude params; extra_args := extra_args params;
     timeout_sec := timeout_sec params;
     fail_on_severity := fail_on_severity params |}.

Definition with_extra_args (params : PyrightCheckParams) (a : option (list string))
  : PyrightCheckParams :=
  {| target := target params; cwd := cwd params; include := include params;
     exclude := exclude params; extra_args := a;
     timeout_sec := timeout_sec params;
     fail_on_severity := fail_on_severity params |}.

(** The pass-through arguments of a request. *)
Definition extra_of (params : PyrightCheckParams) : list string :=
  match nonempty_list (extra_args params) with
  | Some extra => extra
  | None => []
  end.

(** The place a request is analysed from: the working directory when one
    is given, else the parent of a missing target, else the target when it
    is a directory and its parent otherwise. *)
Definition root_to_resolve (w : World) (params : PyrightCheckParams) : Path :=
  let target_path := Path_of_str (target params) in
  match nonempty_str (cwd params) with
  | Some c => Path_of_str c
  | None =>
      if Path_exists w target_path && Path_is_dir w target_path
      then target_path
      else Path_parent target_path
  end.

(** A world that differs in what [shutil.which] finds and in how child
    processes end. *)
Definition with_processes (w : World)
  (which : string -> option string)
  (run : list string -> option string -> Z -> proc_outcome) : World :=
  {| environ_VIRTUAL_ENV := environ_VIRTUAL_ENV w;
     sys_prefix := sys_prefix w;
     sys_base_prefix := sys_base_prefix w;
     sys_executable := sys_executable w;
     Path_cwd := Path_cwd w;
     shutil_which := which;
     subprocess_run := run;
     Path_exists := Path_exists w;
     Path_is_dir := Path_is_dir w;
     Path_is_file := Path_is_file w;
     Path_resolve := Path_resolve w;
     Path_glob := Path_glob w;
     Path_rglob := Path_rglob w;
     recursion_limit := recursion_limit w |}.

(** The sample project on a machine without pyright: nothing on the search
    path, and no module to run. *)
Definition world_without_pyright : World :=
  with_processes sample_world (fun _ => None) (fun _ _ _ => FileNotFoundError).

(** The sample project where the check runs out of time. *)
Definition world_timing_out : World :=
  with_processes sample_world (shutil_which sample_world)
    (fun cmd c t =>
       match cmd with
       | [_; "--version"] => subprocess_run sample_world cmd c t
       | _ => TimeoutExpired
       end).

(** The sample project where the executable is gone when the check starts. *)
Definition world_vanishing : World :=
  with_processes sample_world (shutil_which sample_world)
    (fun cmd c t =>
       match cmd with
       | [_; "--version"] => subprocess_run sample_world cmd c t
       | _ => FileNotFoundError
       end).

(** The sample project where pyright prints something that is no report. *)
Definition world_garbled : World :=
  with_processes sample_world (shutil_which sample_world)
    (fun cmd c t =>
       match cmd with
       | [_; "--version"] => subprocess_run sample_world cmd c t
       | _ => Completed 2 "not-json" "usage: pyright"
       end).

(** A world that differs in the prefix of the base interpreter. *)
Definition with_base_prefix (w : World) (b : string) : World :=
  {| environ_VIRTUAL_ENV := environ_VIRTUAL_ENV w;
     sys_prefix := sys_prefix w;
     sys_base_prefix := b;
     sys_executable := sys_executable w;
     Path_cwd := Path_cwd w;
     shutil_which := shutil_which w;
     subprocess_run := subprocess_run w;
     Path_exists := Path_exists w;
     Path_is_dir := Path_is_dir w;
     Path_is_file := Path_is_file w;
     Path_resolve := Path_resolve w;
     Path_glob := Path_glob w;
     Path_rglob := Path_rglob w;
     recursion_limit := recursion_limit w |}.

(** Whether a text, as bytes, starts with a whole code point, as the
    encoding of every [str] does. *)
Definition starts_code_point (s : string) : bool :=
  match chars s with
  | c :: _ => negb (is_continuation c)
  | [] => true
  end.

(** The results of [sample_request] in the worlds above. *)
Definition unavailable_result : CheckResult :=
  failed unavailable_reason [] (-1) "" "/work/proj" ["/work/proj"] "/usr".

Definition timed_out_result : CheckResult :=
  failed (timeout_reason 60) ["/usr/bin/pyright"; "--outputjson"; "/work/proj"] (-1)
         "1.1.405" "/work/proj" ["/work/proj"] "/usr".

Definition vanished_result : CheckResult :=
  failed spawn_reason ["/usr/bin/pyright"; "--outputjson"; "/work/proj"] (-1)
         "1.1.405" "/work/proj" ["/work/proj"] "/usr".

Definition garbled_result : CheckResult :=
  failed (parse_reason ("not-json" ++ newline ++ "usage: pyright"))
         ["/usr/bin/pyright"; "--outputjson"; "/work/proj"] 2
         "1.1.405" "/work/proj" ["/work/proj"] "/usr".

(** The sample request with two pass-through arguments, and its result. *)
Definition sample_with_args : PyrightCheckParams :=
  with_extra_args sample_request (Some ["--pythonversion"; "3.12"]).

Definition sample_with_args_result : CheckResult :=
  {| ok := ok sample_result;
     fail_reason := fail_reason sample_result;
     command := ["/usr/bin/pyright"; "--outputjson"; "--pythonversion"; "3.12";
                 "/work/proj"];
     exit_code := exit_code sample_result;
     summary := summary sample_result;
     diagnostics := diagnostics sample_result;
     pyright_version := pyright_version sample_result;
     analyzed_root := analyzed_root sample_result;
     checked_paths := checked_paths sample_result;
     venv_path := venv_path sample_result |}.

(** The sample request run from another directory. *)
Definition sample_from_work : PyrightCheckParams :=
  with_cwd sample_request (Some "/work").

Definition sample_from_work_result : CheckResult :=
  {| ok := ok sample_result;
     fail_reason := fail_reason sample_result;
     command := command sample_result;
     exit_code := exit_code sample_result;
     summary := summary sample_result;
     diagnostics := diagnostics sample_result;
     pyright_version := pyright_version sample_result;
     analyzed_root := "/work";
     checked_paths := checked_paths sample_result;
     venv_path := venv_path sample_result |}.

(** What the expansion of include patterns collects: resolved paths of
    files, each once. *)
Definition collected (w : World) (found : list Path) : Prop :=
  NoDup (map Path_cparts found) /\
  Forall (fun p => exists f, Path_is_file w f = true /\ Path_resolve w f = Ok p) found.

(** Whether a diagnostic has the given sort key. *)
Definition has_key (k : string * Z * Z) (d : DiagnosticOut) : bool :=
  match key_compare (diag_key d) k with
  | Eq => true
  | _ => false
  end.

(** A request whose include pattern matches files that its exclude
    pattern removes again, all of them. *)
Definition sample_nothing_left : PyrightCheckParams :=
  {| target := "proj"; cwd := None; include := Some ["pkg*"]; exclude := Some ["*"];
     extra_args := None; timeout_sec := 60; fail_on_severity := "none" |}.

Definition sample_nothing_left_result : CheckResult :=
  {| ok := true;
     fail_reason := None;
     command := ["/usr/bin/pyright"; "--outputjson"];
     exit_code := 1;
     summary := summary sample_result;
     diagnostics := sample_diagnostics;
     pyright_version := "1.1.405";
     analyzed_root := "/work/proj";
     checked_paths := [];
     venv_path := "/usr" |}.

(** * Properties *)

(** ** Orders given by a three-way comparison *)

Section OrderFacts.
Context {A : Type} (cmp : A -> A -> comparison) `{TotalOrder A cmp}.

Lemma cmp_refl (a : A) : cmp a a = Eq.
Proof. now apply (cmp_eq cmp). Qed.

Lemma leb_of_total (a b : A) : leb_of cmp a b = true \/ leb_of cmp b a = true.
Proof.
  unfold leb_of. rewrite (cmp_antisym cmp a b).
  destruct (cmp a b); simpl; auto.
Qed.

Lemma leb_of_trans (a b c : A) :
  leb_of cmp a b = true -> leb_of cmp b c = true -> leb_of cmp a c = true.
Proof.
  unfold leb_of.
  destruct (cmp a b) eqn:Hab; try discriminate; intros _;
    destruct (cmp b c) eqn:Hbc; try discriminate; intros _.
  - apply (cmp_eq cmp) in Hab. subst. now rewrite Hbc.
  - apply (cmp_eq cmp) in Hab. subst. now rewrite Hbc.
  - apply (cmp_eq cmp) in Hbc. subst. now rewrite Hab.
  - now rewrite (cmp_trans cmp a b c Hab Hbc).
Qed.

Lemma leb_of_antisym (a b : A) :
  leb_of cmp a b = true -> leb_of cmp b a = true -> a = b.
Proof.
  unfold leb_of. rewrite (cmp_antisym cmp a b).
  destruct (cmp a b) eqn:Hab; simpl; try discriminate.
  intros _ _. now apply (cmp_eq cmp).
Qed.

Lemma leb_of_refl (a : A) : leb_of cmp a a = true.
Proof. unfold leb_of. now rewrite cmp_refl. Qed.
End OrderFacts.

#[export] Instance Z_order : TotalOrder Z.compare.
Proof.
  split.
  - intros a b. apply Z.compare_eq_iff.
  - intros a b. apply Z.compare_antisym.
  - intros a b c. rewrite !Z.compare_lt_iff. lia.
Qed.

#[export] Instance ascii_order : TotalOrder Ascii.compare.
Proof.
  split.
  - intros a b. split.
    + apply Ascii.compare_eq_iff.
    + intros ->. unfold Ascii.compare. apply N.compare_refl.
  - intros a b. apply Ascii.compare_antisym.
  - intros a b c. unfold Ascii.compare. rewrite !N.compare_lt_iff. lia.
Qed.

#[export] Instance string_order : TotalOrder str_compare.
Proof.
  unfold str_compare. split.
  - intros a b. split.
    + apply String.compare_eq_iff.
    + intros ->. induction b as [|c b IH]; simpl; [reflexivity|].
      now rewrite (cmp_refl Ascii.compare).
  - intros a b. apply String.compare_antisym.
  - induction a as [|x a IH]; intros [|y b] [|z c]; simpl; try congruence.
    destruct (Ascii.compare x y) eqn:Hxy; try discriminate.
    + apply (cmp_eq Ascii.compare) in Hxy. subst y.
      destruct (Ascii.compare x z); try congruence. apply IH.
    + intros _.
      destruct (Ascii.compare y z) eqn:Hyz; try discriminate.
      * apply (cmp_eq Ascii.compare) in Hyz. subst z. now rewrite Hxy.
      * intros _. now rewrite (cmp_trans Ascii.compare x y z Hxy Hyz).
Qed.

(** Lists of strings, compared as Python compares lists. *)
#[export] Instance strs_order : TotalOrder strs_compare.
Proof.
  split.
  - induction a as [|x a IH]; intros [|y b]; simpl; split; try congruence.
    + destruct (str_compare x y) eqn:Hxy; try discriminate.
      apply (cmp_eq str_compare) in Hxy. subst y.
      intros Hab. apply IH in Hab. now subst.
    + intros [= -> ->]. rewrite (cmp_refl str_compare). now apply IH.
  - induction a as [|x a IH]; intros [|y b]; simpl; try reflexivity.
    rewrite (cmp_antisym str_compare x y).
    destruct (str_compare x y); simpl; auto.
  - induction a as [|x a IH]; intros [|y b] [|z c]; simpl; try congruence.
    destruct (str_compare x y) eqn:Hxy; try discriminate.
    + apply (cmp_eq str_compare) in Hxy. subst y.
      destruct (str_compare x z); try congruence. apply IH.
    + intros _.
      destruct (str_compare y z) eqn:Hyz; try discriminate.
      * apply (cmp_eq str_compare) in Hyz. subst z. now rewrite Hxy.
      * intros _. now rewrite (cmp_trans str_compare x y z Hxy Hyz).
Qed.

#[export] Instance lex_order {A B : Type} (ca : A -> A -> comparison)
  (cb : B -> B -> comparison) `{TotalOrder A ca} `{TotalOrder B cb} :
  TotalOrder (lex_compare ca cb).
Proof.
  unfold lex_compare. split.
  - intros [a1 b1] [a2 b2]. simpl. split.
    + destruct (ca a1 a2) eqn:Ha; try discriminate.
      intros Hb. apply (cmp_eq ca) in Ha. apply (cmp_eq cb) in Hb. now subst.
    + intros [= -> ->]. now rewrite (cmp_refl ca), (cmp_refl cb).
  - intros [a1 b1] [a2 b2]. simpl.
    rewrite (cmp_antisym ca a1 a2), (cmp_antisym cb b1 b2).
    destruct (ca a1 a2); simpl; auto.
  - intros [a1 b1] [a2 b2] [a3 b3]. simpl.
    destruct (ca a1 a2) eqn:H12; try discriminate.
    + apply (cmp_eq ca) in H12. subst a2.
      destruct (ca a1 a3); try congruence. apply (cmp_trans cb).
    + intros _. destruct (ca a2 a3) eqn:H23; try discriminate.
      * apply (cmp_eq ca) in H23. subst a3. now rewrite H12.
      * intros _. now rewrite (cmp_trans ca a1 a2 a3 H12 H23).
Qed.

(** The sort key of diagnostics. *)
#[export] Instance key_order : TotalOrder key_compare.
Proof. unfold key_compare. typeclasses eauto. Qed.

(** ** Stable sorting *)

Section SortFacts.
Context {A : Type} (leb : A -> A -> bool).

Lemma insert_perm (x : A) (l : list A) : Permutation (insert leb x l) (x :: l).
Proof.
  induction l as [|y l IH]; simpl.
  - reflexivity.
  - destruct (leb x y).
    + reflexivity.
    + rewrite IH. apply perm_swap.
Qed.

Lemma sort_perm (l : list A) : Permutation (sort leb l) l.
Proof.
  induction l as [|x l IH]; simpl.
  - reflexivity.
  - rewrite insert_perm. now constructor.
Qed.

(** An item that is below the head of a list goes in front of it. *)
Lemma insert_below_head (x : A) (l : list A) :
  HdRel (le_of leb) x l -> insert leb x l = x :: l.
Proof.
  intros [|y l' Hxy]; simpl.
  - reflexivity.
  - unfold le_of in Hxy. now rewrite Hxy.
Qed.

(** Sorting a sorted list changes nothing. *)
Lemma sort_fixed (l : list A) : Sorted (le_of leb) l -> sort leb l = l.
Proof.
  induction 1 as [|x l Hs IH Hd]; simpl.
  - reflexivity.
  - rewrite IH. now apply insert_below_head.
Qed.

(** Items of one class of equivalent keys keep their order. *)
Lemma filter_insert (p : A -> bool)
  (Hp : forall a b, p a = true -> p b = true -> leb a b = true)
  (x : A) (l : list A) :
  filter p (insert leb x l) = if p x then x :: filter p l else filter p l.
Proof.
  induction l as [|y l IH]; simpl.
  - reflexivity.
  - destruct (leb x y) eqn:Hxy; simpl.
    + reflexivity.
    + rewrite IH. destruct (p y) eqn:Hy, (p x) eqn:Hx; try reflexivity.
      rewrite (Hp x y Hx Hy) in Hxy. discriminate.
Qed.

Lemma sort_stable (p : A -> bool)
  (Hp : forall a b, p a = true -> p b = true -> leb a b = true)
  (l : list A) :
  filter p (sort leb l) = filter p l.
Proof.
  induction l as [|x l IH]; simpl.
  - reflexivity.
  - rewrite filter_insert by exact Hp. now rewrite IH.
Qed.

Hypothesis leb_total : forall a b, leb a b = true \/ leb b a = true.

Lemma insert_hdrel (a x : A) (l : list A) :
  (le_of leb) a x -> HdRel (le_of leb) a l -> HdRel (le_of leb) a (insert leb x l).
Proof.
  intros Hax [|y l' Hay]; simpl.
  - now constructor.
  - destruct (leb x y); now constructor.
Qed.

Lemma insert_sorted (x : A) (l : list A) :
  Sorted (le_of leb) l -> Sorted (le_of leb) (insert leb x l).
Proof.
  induction 1 as [|y l Hs IH Hd]; simpl.
  - repeat constructor.
  - destruct (leb x y) eqn:Hxy.
    + constructor; [now constructor | now constructor].
    + constructor; [exact IH|].
      apply insert_hdrel; [|exact Hd].
      destruct (leb_total x y) as [H|H]; [congruence | exact H].
Qed.

Lemma sort_sorted (l : list A) : Sorted (le_of leb) (sort leb l).
Proof.
  induction l as [|x l IH]; simpl.
  - constructor.
  - now apply insert_sorted.
Qed.

Lemma sort_idempotent (l : list A) : sort leb (sort leb l) = sort leb l.
Proof. apply sort_fixed, sort_sorted. Qed.

Hypothesis leb_trans :
  forall a b c, leb a b = true -> leb b c = true -> leb a c = true.

Lemma sort_strongly_sorted (l : list A) : StronglySorted (le_of leb) (sort leb l).
Proof.
  apply Sorted_StronglySorted.
  - intros a b c. apply leb_trans.
  - apply sort_sorted.
Qed.
End SortFacts.

Lemma diag_leb_total (a b : DiagnosticOut) :
  diag_leb a b = true \/ diag_leb b a = true.
Proof. apply (leb_of_total key_compare). Qed.

Lemma diag_leb_trans (a b c : DiagnosticOut) :
  diag_leb a b = true -> diag_leb b c = true -> diag_leb a c = true.
Proof. apply (leb_of_trans key_compare). Qed.

Lemma Path_leb_total (p q : Path) : Path_leb p q = true \/ Path_leb q p = true.
Proof. apply (leb_of_total strs_compare). Qed.

Lemma Path_leb_trans (p q r : Path) :
  Path_leb p q = true -> Path_leb q r = true -> Path_leb p r = true.
Proof. apply (leb_of_trans strs_compare). Qed.

(** ** The threshold evaluator *)

Lemma max_level_nonneg (diags : list DiagnosticOut) : 0 <= max_level diags.
Proof. induction diags; simpl; lia. Qed.

(** The running maximum lies between its start and the true maximum. *)
Lemma scan_max_bounds (th m : Z) (diags : list DiagnosticOut) :
  m <= scan_max th m diags <= Z.max m (max_level diags).
Proof.
  revert m. induction diags as [|d diags IH]; intros m; simpl.
  - pose proof (max_level_nonneg []). simpl in *. lia.
  - destruct (th <=? Z.max m (severity_level d)) eqn:E.
    + pose proof (max_level_nonneg diags). lia.
    + specialize (IH (Z.max m (severity_level d))). lia.
Qed.

(** A scan that ends below the threshold has seen every diagnostic. *)
Lemma scan_max_below (th m : Z) (diags : list DiagnosticOut) :
  0 <= m -> scan_max th m diags < th ->
  scan_max th m diags = Z.max m (max_level diags).
Proof.
  revert m. induction diags as [|d diags IH]; intros m Hm; simpl.
  - lia.
  - destruct (th <=? Z.max m (severity_level d)) eqn:E.
    + apply Z.leb_le in E. lia.
    + intros H. rewrite IH by lia. lia.
Qed.

(** The scan reaches the threshold exactly when the maximum does. *)
Lemma scan_max_reaches (th : Z) (diags : list DiagnosticOut) :
  0 < th ->
  (th <=? scan_max th 0 diags) && (0 <? scan_max th 0 diags)
  = (th <=? max_level diags) && (0 <? max_level diags).
Proof.
  intros Hth.
  pose proof (scan_max_bounds th 0 diags) as Hb.
  pose proof (max_level_nonneg diags) as Hn.
  destruct (Z.lt_ge_cases (scan_max th 0 diags) th) as [Hlt|Hge].
  - rewrite (scan_max_below th 0 diags) in * by lia.
    now rewrite Z.max_r by lia.
  - assert (th <= max_level diags) by lia.
    assert (H1 : (th <=? scan_max th 0 diags) = true) by (apply Z.leb_le; lia).
    assert (H2 : (0 <? scan_max th 0 diags) = true) by (apply Z.ltb_lt; lia).
    assert (H3 : (th <=? max_level diags) = true) by (apply Z.leb_le; lia).
    assert (H4 : (0 <? max_level diags) = true) by (apply Z.ltb_lt; lia).
    now rewrite H1, H2, H3, H4.
Qed.

(** Threshold "none": ok, and no reason, whatever the diagnostics. *)
Lemma threshold_none (diags : list DiagnosticOut) :
  _compute_threshold_ok diags "none" = Ok (true, None).
Proof. reflexivity. Qed.

(** For the three other thresholds the verdict is not-ok exactly when the
    maximum severity level is non-zero and at or above the level of the
    threshold. *)
Lemma threshold_verdict (diags : list DiagnosticOut) (threshold : string) (th : Z) :
  In (threshold, th) SEVERITY_LEVEL ->
  exists reason,
    _compute_threshold_ok diags threshold
    = Ok (negb ((th <=? max_level diags) && (0 <? max_level diags)), reason).
Proof.
  intros Hin. simpl in Hin.
  destruct Hin as [H|[H|[H|[]]]]; injection H as <- <-;
    unfold _compute_threshold_ok; cbn -[scan_max Z.leb Z.ltb max_level];
    (rewrite <- scan_max_reaches by lia);
    match goal with
    | |- context [if ?c then _ else _] => destruct c
    end; eexists; reflexivity.
Qed.

(** An empty list of diagnostics is ok under every threshold. *)
Lemma threshold_empty (threshold : string) (th : Z) :
  In (threshold, th) (("none", 0) :: SEVERITY_LEVEL) ->
  _compute_threshold_ok [] threshold = Ok (true, None).
Proof.
  simpl. intros [H|[H|[H|[H|[]]]]]; injection H as <- <-; reflexivity.
Qed.

(** C1, at the input where the code leaves the claim: under the threshold
    "information" an information diagnostic followed by an error gives the
    verdict not-ok, as the claim says, but the reason names level 1, the
    level at which the scan stopped, while the maximum severity level over
    the diagnostics is 3. *)
Theorem C1_reason_names_level_at_stop :
  _compute_threshold_ok
    [diag_of_severity "information" 1; diag_of_severity "error" 3] "information"
  = Ok (false,
        Some "fail_on_severity 'information' breached (max_severity_level=1).")
  /\ max_level [diag_of_severity "information" 1; diag_of_severity "error" 3] = 3.
Proof. split; reflexivity. Qed.

(** What the scan ends with: the level of the first diagnostic that reaches
    the threshold, and the maximum only when none does. *)
Lemma scan_max_first (th m : Z) (diags : list DiagnosticOut) :
  0 <= m < th ->
  scan_max th m diags
  = match first_at_or_above th diags with
    | Some level => level
    | None => Z.max m (max_level diags)
    end.
Proof.
  revert m. induction diags as [|d diags IH]; intros m Hm; simpl.
  - lia.
  - destruct (Z.leb_spec th (severity_level d)) as [Hd|Hd].
    + destruct (Z.leb_spec th (Z.max m (severity_level d))); lia.
    + destruct (Z.leb_spec th (Z.max m (severity_level d))); [lia|].
      rewrite IH by lia.
      destruct (first_at_or_above th diags); lia.
Qed.

(** ** Normalization of one diagnostic *)

Lemma severity_of_known (sev_raw : option pyval) :
  In (severity_of sev_raw) ["information"; "warning"; "error"].
Proof.
  destruct sev_raw as [[]|]; simpl; auto.
  destruct (String.eqb s "information") eqn:E1.
  { apply String.eqb_eq in E1. subst. simpl. auto. }
  destruct (String.eqb s "warning") eqn:E2.
  { apply String.eqb_eq in E2. subst. simpl. auto. }
  destruct (String.eqb s "error") eqn:E3.
  { apply String.eqb_eq in E3. subst. simpl. auto. }
  simpl. auto.
Qed.

Lemma lookup_severity_of (sev_raw : option pyval) :
  exists level,
    lookup SEVERITY_LEVEL (severity_of sev_raw) = Ok level /\
    In (severity_of sev_raw, level) SEVERITY_LEVEL.
Proof.
  destruct (severity_of_known sev_raw) as [H|[H|[H|[]]]]; rewrite <- H;
    eexists; (split; [reflexivity | simpl; auto]).
Qed.

(** What normalization does with the severity of a mapping. *)
Lemma normalize_severity (w : World) (d : pydict) (n : DiagnosticOut) :
  _normalize_diag w (PDict d) = Ok n ->
  severity n = severity_of (dict_get d "severity") /\
  lookup SEVERITY_LEVEL (severity n) = Ok (severity_level n).
Proof.
  unfold _normalize_diag. cbn [py_get bind]. intros H.
  set (sev := match str_in (dict_get_default d "severity" (PStr "information"))
                            ["information"; "warning"; "error"] with
              | Some s => s
              | None => "information"
              end) in H.
  assert (Hsev : sev = severity_of (dict_get d "severity")).
  { subst sev. unfold dict_get_default, severity_of.
    destruct (dict_get d "severity") as [[]|]; try reflexivity.
    unfold str_in. now destruct (existsb _ _). }
  clearbody sev. steps H. injection H as <-. cbn. split; assumption.
Qed.

(** C3: every diagnostic that normalization produces pairs its severity
    with the level the table [SEVERITY_LEVEL] gives for it, so the pair is
    one of (information, 1), (warning, 2), (error, 3). *)
Theorem C3_severity_level_is_table_value
  (w : World) (d : pyval) (n : DiagnosticOut) :
  _normalize_diag w d = Ok n ->
  In (severity n, severity_level n) SEVERITY_LEVEL /\
  lookup SEVERITY_LEVEL (severity n) = Ok (severity_level n).
Proof.
  intros H.
  destruct d as [| | | | |l|d];
    try (unfold _normalize_diag in H; cbn in H; discriminate H).
  destruct (normalize_severity w d n H) as [Hs Hl].
  split; [|exact Hl].
  destruct (lookup_severity_of (dict_get d "severity")) as [level [Hk Hin]].
  rewrite <- Hs in Hk, Hin. congruence.
Qed.

(** The sample raw diagnostic normalizes to [norm_error]. *)
Lemma normalize_raw_error : _normalize_diag sample_world raw_error = Ok norm_error.
Proof. vm_compute. reflexivity. Qed.

(** C3 on the sample raw diagnostic: an error is paired with level 3. *)
Lemma C3_witness :
  In (severity norm_error, severity_level norm_error) SEVERITY_LEVEL /\
  lookup SEVERITY_LEVEL (severity norm_error) = Ok (severity_level norm_error).
Proof.
  apply (C3_severity_level_is_table_value sample_world raw_error norm_error).
  vm_compute. reflexivity.
Defined.

(** C10: in every diagnostic that normalization produces the [code] field
    equals the [rule] field. *)
Theorem C10_code_equals_rule (w : World) (d : pyval) (n : DiagnosticOut) :
  _normalize_diag w d = Ok n -> code n = rule n.
Proof.
  unfold _normalize_diag. intros H. steps H. injection H as <-. reflexivity.
Qed.

(** C10 on the sample raw diagnostic, whose raw [code] is not its [rule]. *)
Lemma C10_witness : code norm_error = rule norm_error.
Proof.
  apply (C10_code_equals_rule sample_world raw_error norm_error).
  vm_compute. reflexivity.
Defined.

(** *** Defaults *)








(** ** The parser *)

(** C5: [parse_pyright_json] never raises; it returns null exactly when the
    text does not decode, or decodes to something that is no mapping, or to
    a mapping without [summary] or without [generalDiagnostics]; otherwise
    it returns the decoded mapping; and the text [not-json] gives null. *)
Theorem C5_parse_total (w : World) (text : string) :
  (exists r, parse_pyright_json w text = Ok r) /\
  (parse_pyright_json w text = Ok None <->
     (exists e, json_loads (recursion_limit w) text = Raise e) \/
     (exists v, json_loads (recursion_limit w) text = Ok v /\ as_dict v = None) \/
     (exists d, json_loads (recursion_limit w) text = Ok (PDict d) /\
                (dict_mem d "summary" = false \/
                 dict_mem d "generalDiagnostics" = false))) /\
  (forall d,
      json_loads (recursion_limit w) text = Ok (PDict d) ->
      dict_mem d "summary" = true ->
      dict_mem d "generalDiagnostics" = true ->
      parse_pyright_json w text = Ok (Some d)) /\
  parse_pyright_json w "not-json" = Ok None.
Proof.
  unfold parse_pyright_json.
  split; [|split; [|split]].
  - destruct (json_loads (recursion_limit w) text) as [v|e]; [|eauto].
    destruct (as_dict v); [|eauto].
    destruct (negb _ || negb _); eauto.
  - destruct (json_loads (recursion_limit w) text) as [v|e].
    + destruct v; cbn [as_dict];
        try (split; [intros _; right; left; eexists; split; reflexivity
                    | reflexivity]).
      destruct (dict_mem d "summary") eqn:Hs,
               (dict_mem d "generalDiagnostics") eqn:Hg; cbn;
        try (split; [intros _; right; right; exists d; split; auto
                    | reflexivity]).
      split; [discriminate|].
      intros [[e He]|[[v [Hv Hn]]|[d' [Hd [H|H]]]]]; try discriminate.
      * injection Hv as <-. discriminate.
      * injection Hd as <-. congruence.
      * injection Hd as <-. congruence.
    + split; [eauto | reflexivity].
  - intros d Hd Hs Hg. rewrite Hd. cbn [as_dict]. now rewrite Hs, Hg.
  - destruct (recursion_limit w); reflexivity.
Qed.

(** ** The orchestrator: a target that does not exist *)




(** ** The orchestrator: a run that is parsed *)

(** The sample request runs to [sample_result]. *)
Lemma sample_run : run_check sample_world sample_request = Ok sample_result.
Proof. vm_compute. reflexivity. Qed.

(** The diagnostics of a result are none, or a sorted list. *)
Lemma run_check_diagnostics (w : World) (params : PyrightCheckParams) (r : CheckResult) :
  run_check w params = Ok r ->
  diagnostics r = [] \/ exists l, diagnostics r = sort_diags l.
Proof.
  unfold run_check. intros H.
  steps H; injection H as <-; cbn; eauto.
Qed.

(** Diagnostics with one and the same key keep the order of the report. *)
Lemma sort_diags_stable (k : string * Z * Z) (l : list DiagnosticOut) :
  let same d := match key_compare (diag_key d) k with Eq => true | _ => false end in
  filter same (sort_diags l) = filter same l.
Proof.
  intros same. apply sort_stable. intros a b Ha Hb. subst same. cbn beta in *.
  destruct (key_compare (diag_key a) k) eqn:Ea; try discriminate.
  destruct (key_compare (diag_key b) k) eqn:Eb; try discriminate.
  apply (cmp_eq key_compare) in Ea, Eb.
  unfold diag_leb, key_leb. rewrite Ea, Eb.
  now rewrite (cmp_refl key_compare).
Qed.

(** C2: the diagnostics of every result are in ascending order of the key
    (file, start line, start character), each one at or below all that
    follow it, and sorting them again by that key gives the same list. *)
Theorem C2_diagnostics_sorted (w : World) (params : PyrightCheckParams) (r : CheckResult) :
  run_check w params = Ok r ->
  StronglySorted (fun a b => key_leb (diag_key a) (diag_key b) = true)
                 (diagnostics r) /\
  sort_diags (diagnostics r) = diagnostics r.
Proof.
  intros H. destruct (run_check_diagnostics w params r H) as [E|[l E]]; rewrite E.
  - split; [constructor | reflexivity].
  - split.
    + apply (sort_strongly_sorted diag_leb diag_leb_total diag_leb_trans).
    + apply (sort_idempotent diag_leb diag_leb_total).
Qed.

(** C2 on the sample run, whose report lists [b.py] before [a.py]. *)
Lemma C2_witness :
  StronglySorted (fun a b => key_leb (diag_key a) (diag_key b) = true)
                 sample_diagnostics /\
  sort_diags sample_diagnostics = sample_diagnostics.
Proof.
  apply (C2_diagnostics_sorted sample_world sample_request sample_result).
  vm_compute. reflexivity.
Defined.

(** *** The summary *)

(** A summary that normalizes is read field by field from the raw one. *)
Lemma normalize_summary_fields (parsed : pydict) (s : SummaryOut) :
  normalize_summary
    (py_or (dict_get_default parsed "summary" (PDict [])) (PDict [])) = Ok s ->
  int_of_raw (raw_count parsed "filesAnalyzed") = Ok (files_analyzed s) /\
  int_of_raw (raw_count parsed "errorCount") = Ok (error_count s) /\
  int_of_raw (raw_count parsed "warningCount") = Ok (warning_count s) /\
  int_of_raw (raw_count parsed "informationCount") = Ok (information_count s) /\
  float_of_raw (raw_count parsed "timeInSec") = Ok (time_sec s).
Proof.
  unfold raw_count, dict_get_default, py_or.
  assert (Hd : forall sd : pydict,
             normalize_summary (PDict sd) = Ok s ->
             int_of_raw (dict_get sd "filesAnalyzed") = Ok (files_analyzed s) /\
             int_of_raw (dict_get sd "errorCount") = Ok (error_count s) /\
             int_of_raw (dict_get sd "warningCount") = Ok (warning_count s) /\
             int_of_raw (dict_get sd "informationCount") = Ok (information_count s) /\
             float_of_raw (dict_get sd "timeInSec") = Ok (time_sec s)).
  { intros sd H. unfold normalize_summary, int_field, py_get in H.
    cbn [bind] in H. unfold dict_get_default in H.
    unfold int_of_raw, float_of_raw.
    steps H; injection H as <-; cbn [files_analyzed error_count warning_count
                                       information_count time_sec];
      repeat split; assumption. }
  destruct (dict_get parsed "summary") as [v|].
  - destruct (truthy v) eqn:Ht.
    + destruct v; try (intros H; cbn in H; discriminate H). apply Hd.
    + intros H. destruct v; try exact (Hd [] H).
      destruct d; [exact (Hd [] H) | discriminate].
  - cbn [truthy]. apply Hd.
Qed.

(** C7: in a result that comes from a completed run whose output parsed,
    each of the four counters is the [int] of the raw count, so the raw
    integer itself, and 0 when the count is absent; the elapsed time is the
    raw float, and 0.0 when absent; the list of diagnostics plays no part. *)
Theorem C7_summary_passthrough
  (w : World) (params : PyrightCheckParams) (r : CheckResult)
  (rc : Z) (out err : string) (parsed : pydict) :
  run_check w params = Ok r ->
  command r <> [] ->
  subprocess_run w (command r) (Some (analyzed_root r)) (timeout_sec params)
  = Completed rc out err ->
  parse_pyright_json w out = Ok (Some parsed) ->
  (forall key field,
      In (key, field)
         [("filesAnalyzed", files_analyzed); ("errorCount", error_count);
          ("warningCount", warning_count); ("informationCount", information_count)] ->
      int_of_raw (raw_count parsed key) = Ok (field (summary r)) /\
      (raw_count parsed key = None -> field (summary r) = 0) /\
      (forall z, raw_count parsed key = Some (PInt z) -> field (summary r) = z)) /\
  float_of_raw (raw_count parsed "timeInSec") = Ok (time_sec (summary r)) /\
  (raw_count parsed "timeInSec" = None -> time_sec (summary r) = float_zero) /\
  (forall f, raw_count parsed "timeInSec" = Some (PFloat f) -> time_sec (summary r) = f).
Proof.
  intros H Hcmd Hrun Hparse.
  assert (Hs : normalize_summary
                 (py_or (dict_get_default parsed "summary" (PDict [])) (PDict []))
               = Ok (summary r)).
  { unfold run_check in H.
    steps H; injection H as <-;
      try (exfalso; apply Hcmd; reflexivity);
      match goal with
      | E : subprocess_run _ _ _ _ = _ |- _ =>
          pose proof (eq_trans (eq_sym E) Hrun) as Hx;
          try discriminate Hx; injection Hx as -> -> ->
      end;
      match goal with
      | E : parse_pyright_json _ _ = _ |- _ =>
          rewrite E in Hparse; try discriminate Hparse; injection Hparse as ->
      end;
      assumption. }
  destruct (normalize_summary_fields parsed (summary r) Hs)
    as (Hfa & Hec & Hwc & Hic & Hts).
  split; [|split; [exact Hts|split]].
  - intros key field Hin.
    assert (Hk : int_of_raw (raw_count parsed key) = Ok (field (summary r))).
    { simpl in Hin.
      destruct Hin as [Hin|[Hin|[Hin|[Hin|[]]]]]; injection Hin as <- <-; assumption. }
    split; [exact Hk|]. split.
    + intros Hn. rewrite Hn in Hk. cbn in Hk. congruence.
    + intros z Hz. rewrite Hz in Hk. cbn in Hk. congruence.
  - intros Hn. rewrite Hn in Hts. cbn in Hts. congruence.
  - intros f Hf. rewrite Hf in Hts. cbn in Hts. congruence.
Qed.

(** On the sample run the raw count of errors is 1 and so is the count in
    the summary, while two of the diagnostics are errors. *)
Lemma C7_witness :
  raw_count sample_parsed "errorCount" = Some (PInt 1) /\
  error_count (summary sample_result) = 1 /\
  List.length (filter (fun d => String.eqb (severity d) "error")
                      (diagnostics sample_result)) = 2%nat /\
  time_sec (summary sample_result) = S754_finite false 4503599627370496 (-54).
Proof.
  assert (H1 : run_check sample_world sample_request = Ok sample_result)
    by (vm_compute; reflexivity).
  assert (H2 : command sample_result <> []) by discriminate.
  assert (H3 : subprocess_run sample_world (command sample_result)
                 (Some (analyzed_root sample_result)) (timeout_sec sample_request)
               = Completed 1 sample_report "") by reflexivity.
  assert (H4 : parse_pyright_json sample_world sample_report = Ok (Some sample_parsed))
    by (vm_compute; reflexivity).
  destruct (C7_summary_passthrough sample_world sample_request sample_result
              1 sample_report "" sample_parsed H1 H2 H3 H4)
    as (Hcount & _ & _ & Htime).
  split; [reflexivity|]. split.
  - apply (Hcount "errorCount" error_count); [simpl; auto | reflexivity].
  - split; [reflexivity|]. apply Htime. reflexivity.
Defined.

(** ** The paths that are checked *)

(** Past the test for a missing target, a result carries the paths that
    [paths_to_pass] made of the expansion, and its command, if it has one,
    ends with the same paths. *)
Lemma run_check_paths (w : World) (params : PyrightCheckParams) (r : CheckResult) :
  run_check w params = Ok r ->
  Path_exists w (Path_of_str (target params)) = true ->
  exists root paths,
    root_for_globs_of w (Path_of_str (target params)) = Ok root /\
    _iter_included_paths w root (include params) (exclude params) = Ok paths /\
    paths_to_pass w (Path_of_str (target params)) (include params) paths
    = Ok (checked_paths r) /\
    (command r = [] \/ exists argv, command r = (argv ++ checked_paths r)%list).
Proof.
  unfold run_check. intros H Hex. rewrite Hex in H. cbn [negb] in H.
  steps H; injection H as <-;
    repeat match goal with
           | E1 : ?t = Ok ?a, E2 : ?t = Ok ?b |- _ =>
               rewrite E1 in E2; injection E2 as <-
           end;
    lazy beta iota delta [checked_paths command failed];
    do 2 eexists; (split; [reflexivity|]); (split; [eassumption|]);
    (split; [eassumption|]);
    first [ left; reflexivity
          | right;
            match goal with
            | |- exists argv, ?x :: (?rest ++ ?p)%list = _ =>
                exists (x :: rest); reflexivity
            end ].
Qed.

(** *** No include patterns *)









(** The helper on its own does apply the exclude patterns to its one path:
    with no include pattern and an exclude pattern that matches the name of
    the root it returns no path at all.  [run_check] does not use that list
    when there are no include patterns (see [paths_to_pass]). *)
Remark iter_included_paths_filters_root :
  _iter_included_paths sample_world (Path_of_str "/work/proj") None (Some ["*"])
  = Ok []
  /\ _iter_included_paths sample_world (Path_of_str "/work/proj") None None
     = Ok [Path_of_str "/work/proj"].
Proof. vm_compute. split; reflexivity. Qed.

(** *** Include patterns *)

Lemma Path_eqb_cparts (p q : Path) :
  Path_eqb p q = true <-> Path_cparts p = Path_cparts q.
Proof.
  unfold Path_eqb. rewrite <- (cmp_eq strs_compare).
  destruct (strs_compare (Path_cparts p) (Path_cparts q)); split; congruence.
Qed.

Lemma set_add_keys (p : Path) (s : list Path) (k : list string) :
  In k (map Path_cparts (set_add p s)) <-> k = Path_cparts p \/ In k (map Path_cparts s).
Proof.
  unfold set_add. destruct (existsb (Path_eqb p) s) eqn:E.
  - split; [auto|]. intros [->|H]; [|exact H].
    apply existsb_exists in E. destruct E as [q [Hq Heq]].
    apply Path_eqb_cparts in Heq. rewrite Heq. now apply in_map.
  - rewrite map_app, in_app_iff. simpl. intuition.
Qed.

Lemma set_add_nodup (p : Path) (s : list Path) :
  NoDup (map Path_cparts s) -> NoDup (map Path_cparts (set_add p s)).
Proof.
  intros Hs. unfold set_add. destruct (existsb (Path_eqb p) s) eqn:E; [exact Hs|].
  rewrite map_app. simpl.
  apply (Permutation_NoDup (l := Path_cparts p :: map Path_cparts s)).
  - apply Permutation_cons_append.
  - constructor; [|exact Hs].
    intros Hin. apply in_map_iff in Hin. destruct Hin as [q [Hq Hin]].
    assert (Ht : existsb (Path_eqb p) s = true).
    { apply existsb_exists. exists q. split; [exact Hin|].
      now apply Path_eqb_cparts. }
    congruence.
Qed.

Lemma fold_set_add (l acc : list Path) :
  NoDup (map Path_cparts acc) ->
  NoDup (map Path_cparts (fold_left (fun s p => set_add p s) l acc)) /\
  forall k,
    In k (map Path_cparts (fold_left (fun s p => set_add p s) l acc))
    <-> In k (map Path_cparts l) \/ In k (map Path_cparts acc).
Proof.
  revert acc. induction l as [|p l IH]; intros acc Hacc; simpl.
  - split; [exact Hacc | intuition].
  - destruct (IH (set_add p acc) (set_add_nodup p acc Hacc)) as [Hn Hk].
    split; [exact Hn|]. intros k. rewrite Hk, set_add_keys. intuition.
Qed.

(** [set(l)] holds each path of [l] once. *)
Lemma py_set_spec (l : list Path) :
  NoDup (map Path_cparts (py_set l)) /\
  forall k, In k (map Path_cparts (py_set l)) <-> In k (map Path_cparts l).
Proof.
  destruct (fold_set_add l [] (NoDup_nil _)) as [Hn Hk].
  split; [exact Hn|]. intros k. unfold py_set. rewrite Hk. simpl. intuition.
Qed.

(** A sorted list without repetition ascends strictly. *)
Lemma sorted_nodup_strict (l : list Path) :
  StronglySorted (le_of Path_leb) l -> NoDup (map Path_cparts l) ->
  StronglySorted Path_lt l.
Proof.
  induction 1 as [|p l Hs IH Hall]; simpl; intros Hn.
  - constructor.
  - inversion Hn as [|k ks Hnotin Hn']; subst.
    constructor; [now apply IH|].
    rewrite Forall_forall in *. intros q Hq.
    specialize (Hall q Hq). unfold le_of, Path_leb, Path_lt in *.
    destruct (strs_compare (Path_cparts p) (Path_cparts q)) eqn:E;
      [|reflexivity|discriminate].
    apply (cmp_eq strs_compare) in E. exfalso. apply Hnotin.
    rewrite E. now apply in_map.
Qed.

(** [sorted(set(l))]: strictly ascending, with the paths of [l]. *)
Lemma sorted_set_spec (l : list Path) :
  StronglySorted Path_lt (sorted_paths (py_set l)) /\
  forall k, In k (map Path_cparts (sorted_paths (py_set l)))
            <-> In k (map Path_cparts l).
Proof.
  destruct (py_set_spec l) as [Hn Hk].
  pose proof (sort_perm Path_leb (py_set l)) as Hp.
  split.
  - apply sorted_nodup_strict.
    + apply (sort_strongly_sorted Path_leb Path_leb_total Path_leb_trans).
    + apply (Permutation_NoDup (l := map Path_cparts (py_set l))); [|exact Hn].
      apply Permutation_map. symmetry. exact Hp.
  - intros k. rewrite <- Hk. unfold sorted_paths. split; intros H.
    + eapply Permutation_in; [|exact H]. now apply Permutation_map.
    + eapply Permutation_in; [|exact H]. apply Permutation_map. now symmetry.
Qed.

(** C9, as the code has it: with include patterns, the checked paths of a
    result are the text of the paths of the expansion, each once, in
    strictly ascending order of paths, which compares them component by
    component; the command, if there is one, ends with the same texts. *)
Theorem C9_paths_in_path_order
  (w : World) (params : PyrightCheckParams) (pats : list string) (r : CheckResult) :
  nonempty_list (include params) = Some pats ->
  Path_exists w (Path_of_str (target params)) = true ->
  run_check w params = Ok r ->
  exists root paths ps,
    root_for_globs_of w (Path_of_str (target params)) = Ok root /\
    _iter_included_paths w root (include params) (exclude params) = Ok paths /\
    checked_paths r = map Path_str ps /\
    (command r = [] \/ exists argv, command r = (argv ++ map Path_str ps)%list) /\
    StronglySorted Path_lt ps /\
    (forall k, In k (map Path_cparts ps) <-> In k (map Path_cparts paths)).
Proof.
  intros Hinc Hex Hr.
  destruct (run_check_paths w params r Hr Hex) as (root & paths & Hroot & Hit & Hp & Hc).
  unfold paths_to_pass in Hp. rewrite Hinc in Hp. injection Hp as Hp.
  exists root, paths, (sorted_paths (py_set paths)).
  rewrite <- Hp in Hc.
  destruct (sorted_set_spec paths) as [Hs Hk].
  repeat split; auto; apply Hk.
Qed.

(** C9 on the sample request with an include pattern. *)
Lemma C9_witness :
  exists ps,
    checked_paths sample_include_result = map Path_str ps /\
    StronglySorted Path_lt ps.
Proof.
  destruct (C9_paths_in_path_order sample_world sample_include ["pkg*"]
              sample_include_result)
    as (root & paths & ps & _ & _ & Hc & _ & Hs & _).
  - reflexivity.
  - vm_compute. reflexivity.
  - vm_compute. reflexivity.
  - exists ps. split; assumption.
Defined.

(** C9 as stated fails on the sample project: the checked paths and the
    path arguments come out with [pkg/mod.py] before [pkg.py], while as
    text [/work/proj/pkg.py] is the smaller of the two, a dot being below a
    slash. *)
Lemma C9_counterexample :
  run_check sample_world sample_include = Ok sample_include_result
  /\ checked_paths sample_include_result
     = ["/work/proj/pkg/mod.py"; "/work/proj/pkg.py"]
  /\ command sample_include_result
     = ["/usr/bin/pyright"; "--outputjson";
        "/work/proj/pkg/mod.py"; "/work/proj/pkg.py"]
  /\ str_compare "/work/proj/pkg/mod.py" "/work/proj/pkg.py" = Gt
  /\ sort str_leb (checked_paths sample_include_result)
     = ["/work/proj/pkg.py"; "/work/proj/pkg/mod.py"].
Proof. vm_compute. repeat split; reflexivity. Qed.

(** ** Every diagnostic of a result *)

Lemma mapM_Forall2 {A B : Type} (f : A -> result B) (l : list A) (l' : list B) :
  mapM f l = Ok l' -> Forall2 (fun x y => f x = Ok y) l l'.
Proof.
  revert l'. induction l as [|x l IH]; simpl; intros l' H.
  - injection H as <-. constructor.
  - steps H. injection H as <-. constructor; [assumption | now apply IH].
Qed.

(** The diagnostics of a result are normalized raw diagnostics, in sorted
    order. *)
Lemma run_check_normalized (w : World) (params : PyrightCheckParams) (r : CheckResult) :
  run_check w params = Ok r ->
  exists items normalized,
    mapM (_normalize_diag w) items = Ok normalized /\
    diagnostics r = sort_diags normalized.
Proof.
  unfold run_check. intros H.
  steps H; injection H as <-; cbn [diagnostics failed];
    first [ now exists [], [] | eauto ].
Qed.

(** The pairing of severity and level, and the equality of code and rule,
    hold for every diagnostic of every result. *)
Lemma run_check_levels (w : World) (params : PyrightCheckParams) (r : CheckResult) :
  run_check w params = Ok r ->
  Forall (fun n => In (severity n, severity_level n) SEVERITY_LEVEL /\
                   code n = rule n)
         (diagnostics r).
Proof.
  intros H. destruct (run_check_normalized w params r H) as (items & l & Hm & ->).
  apply (Permutation_Forall (x := l)).
  - symmetry. apply sort_perm.
  - apply mapM_Forall2 in Hm. induction Hm as [|d n items l Hn _ IH]; constructor.
    + split.
      * destruct d as [| | | | |x|d];
          try (unfold _normalize_diag in Hn; cbn in Hn; discriminate Hn).
        destruct (normalize_severity w d n Hn) as [Hs _].
        destruct (lookup_severity_of (dict_get d "severity")) as [level [Hk Hin]].
        destruct (normalize_severity w d n Hn) as [_ Hl].
        rewrite <- Hs in Hk, Hin. congruence.
      * unfold _normalize_diag in Hn. steps Hn. now injection Hn as <-.
    + exact IH.
Qed.
(** * Further properties *)

(** ** The threshold evaluator, continued *)

Lemma max_level_perm (l l' : list DiagnosticOut) :
  Permutation l l' -> max_level l = max_level l'.
Proof. induction 1; simpl in *; lia. Qed.

Lemma max_level_app (l l' : list DiagnosticOut) :
  max_level (l ++ l') = Z.max (max_level l) (max_level l').
Proof.
  induction l as [|d l IH]; simpl.
  - pose proof (max_level_nonneg l'). lia.
  - rewrite IH. lia.
Qed.

Lemma max_level_exists (th : Z) (l : list DiagnosticOut) :
  0 < th -> (th <= max_level l <-> Exists (fun d => th <= severity_level d) l).
Proof.
  intros Hth. induction l as [|d l IH]; simpl.
  - split; [lia | intros H; inversion H].
  - rewrite Exists_cons, <- IH. lia.
Qed.

(** The levels of the table are positive. *)
Lemma level_positive (threshold : string) (th : Z) :
  In (threshold, th) SEVERITY_LEVEL -> 0 < th.
Proof.
  simpl. intros [H|[H|[H|[]]]]; injection H as <- <-; lia.
Qed.

(** A threshold of the table: whether the verdict is ok. *)
Lemma verdict_of_threshold (diags : list DiagnosticOut) (threshold : string) (th : Z) :
  In (threshold, th) SEVERITY_LEVEL ->
  verdict_of (_compute_threshold_ok diags threshold)
  = Ok (negb ((th <=? max_level diags) && (0 <? max_level diags))).
Proof.
  intros Hin. destruct (threshold_verdict diags threshold th Hin) as [reason ->].
  reflexivity.
Qed.

(** The thresholds that are evaluated are "none" and those of the table. *)
Lemma lookup_threshold (threshold : string) (th : Z) :
  lookup [("information", 1); ("warning", 2); ("error", 3)] threshold = Ok th ->
  In (threshold, th) SEVERITY_LEVEL.
Proof.
  simpl.
  destruct (String.eqb_spec threshold "information") as [->|_];
    [intros H; injection H as <-; auto|].
  destruct (String.eqb_spec threshold "warning") as [->|_];
    [intros H; injection H as <-; auto|].
  destruct (String.eqb_spec threshold "error") as [->|_];
    [intros H; injection H as <-; auto 6|].
  discriminate.
Qed.

(** X1: a threshold that is none of "none", "information", "warning" and
    "error" makes the evaluator raise KeyError, whatever the diagnostics
    are, also when there are none; the comparison is by exact text, so
    another spelling such as "Error" is unknown. *)
Theorem X1_unknown_threshold_raises (diags : list DiagnosticOut) (threshold : string) :
  ~ In threshold ["none"; "information"; "warning"; "error"] ->
  _compute_threshold_ok diags threshold = Raise KeyError.
Proof.
  intros H. unfold _compute_threshold_ok. simpl in *.
  destruct (String.eqb_spec threshold "none"); [exfalso; auto|].
  destruct (String.eqb_spec threshold "information"); [exfalso; auto|].
  destruct (String.eqb_spec threshold "warning"); [exfalso; auto|].
  destruct (String.eqb_spec threshold "error"); [exfalso; auto 6|].
  reflexivity.
Qed.

Lemma X1_witness :
  _compute_threshold_ok [] "Error" = Raise KeyError /\
  _compute_threshold_ok sample_diagnostics "errors" = Raise KeyError.
Proof.
  split; apply X1_unknown_threshold_raises; simpl; intuition discriminate.
Defined.

(** X2: the verdict does not depend on the order of the diagnostics: two
    lists that are permutations of each other get the same verdict, and the
    same exception for an unknown threshold, although the reason they are
    given may name different levels. *)
Theorem X2_verdict_order_independent
  (diags diags' : list DiagnosticOut) (threshold : string) :
  Permutation diags diags' ->
  verdict_of (_compute_threshold_ok diags threshold)
  = verdict_of (_compute_threshold_ok diags' threshold).
Proof.
  intros Hp. unfold _compute_threshold_ok.
  destruct (String.eqb threshold "none"); [reflexivity|].
  destruct (lookup _ threshold) as [th|e] eqn:E; cbn [bind]; [|reflexivity].
  pose proof (level_positive _ _ (lookup_threshold _ _ E)) as Hth.
  rewrite !scan_max_reaches by exact Hth.
  rewrite (max_level_perm _ _ Hp).
  now destruct ((th <=? max_level diags') && (0 <? max_level diags')).
Qed.

Lemma X2_witness :
  verdict_of (_compute_threshold_ok
                [diag_of_severity "information" 1; diag_of_severity "error" 3]
                "warning")
  = verdict_of (_compute_threshold_ok
                  [diag_of_severity "error" 3; diag_of_severity "information" 1]
                  "warning").
Proof.
  apply X2_verdict_order_independent. apply perm_swap.
Defined.

(** X3: a list of diagnostics that passes a threshold passes every
    threshold of a higher level: what is ok under "information" is ok under
    "warning" and "error", and what is ok under "warning" is ok under
    "error". *)
Theorem X3_higher_threshold_passes_more
  (diags : list DiagnosticOut) (t1 t2 : string) (l1 l2 : Z) :
  In (t1, l1) SEVERITY_LEVEL -> In (t2, l2) SEVERITY_LEVEL -> l1 <= l2 ->
  verdict_of (_compute_threshold_ok diags t1) = Ok true ->
  verdict_of (_compute_threshold_ok diags t2) = Ok true.
Proof.
  intros H1 H2 Hle.
  rewrite (verdict_of_threshold diags t1 l1 H1), (verdict_of_threshold diags t2 l2 H2).
  intros H. injection H as H. f_equal.
  apply negb_true_iff, andb_false_iff in H. apply negb_true_iff, andb_false_iff.
  destruct H as [H|H]; [left | right; exact H].
  apply Z.leb_gt in H. apply Z.leb_gt. lia.
Qed.

Lemma X3_witness :
  verdict_of (_compute_threshold_ok
                [diag_of_severity "information" 1] "error")
  = Ok true.
Proof.
  apply (X3_higher_threshold_passes_more _ "warning" "error" 2 3);
    [simpl; auto | simpl; auto | lia | reflexivity].
Defined.

(** X4: diagnostics that are added, before or after the others, never turn
    a verdict that is not ok into one that is. *)
Theorem X4_more_diagnostics_never_pass
  (before diags after : list DiagnosticOut) (threshold : string) :
  verdict_of (_compute_threshold_ok diags threshold) = Ok false ->
  verdict_of (_compute_threshold_ok (before ++ diags ++ after) threshold) = Ok false.
Proof.
  unfold _compute_threshold_ok.
  destruct (String.eqb threshold "none"); [discriminate|].
  destruct (lookup _ threshold) as [th|e] eqn:E; cbn [bind]; [|discriminate].
  pose proof (level_positive _ _ (lookup_threshold _ _ E)) as Hth.
  rewrite !scan_max_reaches by exact Hth.
  rewrite !max_level_app.
  pose proof (max_level_nonneg before). pose proof (max_level_nonneg after).
  destruct ((th <=? max_level diags) && (0 <? max_level diags)) eqn:C;
    [intros _ | discriminate].
  apply andb_true_iff in C. destruct C as [C1 C2].
  apply Z.leb_le in C1. apply Z.ltb_lt in C2.
  assert (C : (th <=? Z.max (max_level before) (Z.max (max_level diags) (max_level after)))
              && (0 <? Z.max (max_level before) (Z.max (max_level diags) (max_level after)))
              = true).
  { apply andb_true_iff. split; [apply Z.leb_le | apply Z.ltb_lt]; lia. }
  now rewrite C.
Qed.

Lemma X4_witness :
  verdict_of (_compute_threshold_ok
                ([diag_of_severity "information" 1]
                 ++ [diag_of_severity "warning" 2]
                 ++ [diag_of_severity "information" 1]) "warning")
  = Ok false.
Proof.
  apply X4_more_diagnostics_never_pass. reflexivity.
Defined.

(** The first level at or above a threshold is the level of a diagnostic
    of the list; there is none when every level is below the threshold. *)
Lemma first_at_or_above_spec (th : Z) (diags : list DiagnosticOut) :
  match first_at_or_above th diags with
  | Some level => exists d, In d diags /\ severity_level d = level /\ th <= level
  | None => max_level diags < th \/ max_level diags = 0
  end.
Proof.
  induction diags as [|d diags IH]; simpl.
  - right. reflexivity.
  - destruct (Z.leb_spec th (severity_level d)) as [Hd|Hd].
    + exists d. auto.
    + destruct (first_at_or_above th diags) as [level|].
      * destruct IH as (d' & Hin & Hl & Hle). exists d'. auto.
      * pose proof (max_level_nonneg diags). destruct IH; [left; lia|].
        destruct (Z.le_gt_cases th 0); [|left; lia].
        destruct (Z.le_gt_cases (severity_level d) 0); [right; lia | left; lia].
Qed.

(** X5: the evaluator gives a reason exactly when its verdict is not ok,
    and the reason is then the breach message for the severity level of one
    of the diagnostics, a level at or above that of the threshold. *)
Theorem X5_reason_with_failed_verdict
  (diags : list DiagnosticOut) (threshold : string) (b : bool) (reason : option string) :
  _compute_threshold_ok diags threshold = Ok (b, reason) ->
  (b = true <-> reason = None) /\
  (b = false ->
   exists d th,
     In d diags /\ In (threshold, th) SEVERITY_LEVEL /\ th <= severity_level d /\
     reason = Some (breach_message threshold (severity_level d))).
Proof.
  unfold _compute_threshold_ok.
  destruct (String.eqb threshold "none").
  { intros H. injection H as <- <-. split; [tauto | discriminate]. }
  destruct (lookup _ threshold) as [th|e] eqn:E; cbn [bind]; [|discriminate].
  pose proof (lookup_threshold _ _ E) as Hin.
  pose proof (level_positive _ _ Hin) as Hth.
  destruct ((th <=? scan_max th 0 diags) && (0 <? scan_max th 0 diags)) eqn:C;
    intros H; injection H as <- <-; (split; [split; discriminate || tauto|]);
    [intros _ | discriminate].
  apply andb_true_iff in C. destruct C as [C1 C2]. apply Z.leb_le in C1.
  rewrite (scan_max_first th 0 diags) in * by lia.
  pose proof (first_at_or_above_spec th diags) as Hf.
  pose proof (max_level_nonneg diags).
  destruct (first_at_or_above th diags) as [level|].
  - destruct Hf as (d & Hd & <- & Hle). exists d, th. auto.
  - exfalso. lia.
Qed.

Lemma X5_witness :
  exists d th,
    In d sample_diagnostics /\ In ("warning", th) SEVERITY_LEVEL /\
    th <= severity_level d /\
    Some "fail_on_severity 'warning' breached (max_severity_level=2)."
    = Some (breach_message "warning" (severity_level d)).
Proof.
  destruct (X5_reason_with_failed_verdict sample_diagnostics "warning" false
              (Some "fail_on_severity 'warning' breached (max_severity_level=2).")
              eq_refl) as [_ H].
  apply H. reflexivity.
Defined.

(** ** Normalization of one diagnostic, continued *)

(** X6: normalization reads five keys of a raw diagnostic and no other:
    two mappings that agree on "file", "severity", "range", "message" and
    "rule" normalize alike, to the same diagnostic or the same exception,
    whatever else they hold. *)
Theorem X6_normalize_reads_five_keys (w : World) (d d' : pydict) :
  (forall k, In k diag_keys -> dict_get d k = dict_get d' k) ->
  _normalize_diag w (PDict d) = _normalize_diag w (PDict d').
Proof.
  intros H. unfold _normalize_diag, py_get, dict_get_default. cbn [bind].
  rewrite (H "file"), (H "severity"), (H "range"), (H "message"), (H "rule");
    (reflexivity || (simpl; auto 6)).
Qed.

Lemma X6_witness :
  _normalize_diag sample_world raw_error
  = _normalize_diag sample_world
      (PDict [("rule", PStr "reportAssignmentType");
              ("category", PInt 7);
              ("severity", PStr "error");
              ("file", PStr "proj/b.py");
              ("range", PDict [("start", PDict [("line", PInt 5); ("character", PInt 2)]);
                               ("end", PDict [("line", PInt 5); ("character", PInt 9)])]);
              ("message", PStr "boom")]).
Proof.
  apply X6_normalize_reads_five_keys.
  intros k [<-|[<-|[<-|[<-|[<-|[]]]]]]; reflexivity.
Defined.

(** X7: a raw diagnostic whose range is there, is truthy and is not a
    mapping (a number, a text, a non-empty list) makes normalization raise
    AttributeError, before the file name is resolved; so does such a value
    when it stands in the place of a raw diagnostic. *)
Theorem X7_range_must_be_mapping (w : World) (d : pydict) (v : pyval) :
  dict_get d "range" = Some v -> truthy v = true -> as_dict v = None ->
  _normalize_diag w (PDict d) = Raise AttributeError /\
  _normalize_diag w v = Raise AttributeError.
Proof.
  intros Hget Ht Hd.
  assert (Hv : forall k default, py_get v k default = Raise AttributeError).
  { intros k default. destruct v; try reflexivity. discriminate Hd. }
  split.
  - unfold _normalize_diag. cbn [py_get bind]. unfold dict_get_default.
    rewrite Hget. unfold py_or. rewrite Ht, Hv. reflexivity.
  - unfold _normalize_diag. rewrite Hv. reflexivity.
Qed.

Lemma X7_witness :
  _normalize_diag sample_world
    (PDict [("file", PStr "proj/b.py"); ("range", PList [PInt 5; PInt 2])])
  = Raise AttributeError /\
  _normalize_diag sample_world (PList [PInt 5; PInt 2]) = Raise AttributeError.
Proof.
  apply (X7_range_must_be_mapping sample_world
           [("file", PStr "proj/b.py"); ("range", PList [PInt 5; PInt 2])]
           (PList [PInt 5; PInt 2])); reflexivity.
Defined.

(** ** Finding pyright and its version *)

Lemma nonempty_str_some (o : option string) (s : string) :
  nonempty_str o = Some s -> o = Some s /\ s <> "".
Proof.
  destruct o as [[|c x]|]; simpl; intros H; try discriminate.
  injection H as <-. split; [reflexivity | discriminate].
Qed.

(** The three ways pyright is invoked: the executable on the search path,
    the module of the running interpreter, or not at all. *)
Lemma build_pyright_argv_cases (w : World) :
  (exists exe, shutil_which w "pyright" = Some exe /\ exe <> "" /\
               _build_pyright_argv w = ([exe], exe)) \/
  _build_pyright_argv w
  = ([sys_executable w; "-m"; "pyright"], sys_executable w ++ " -m pyright") \/
  _build_pyright_argv w = ([], "").
Proof.
  unfold _build_pyright_argv.
  destruct (nonempty_str (shutil_which w "pyright")) as [exe|] eqn:E.
  - left. apply nonempty_str_some in E. destruct E. eauto.
  - right. destruct (subprocess_run w _ None 10); auto.
    destruct (_ && _); auto.
Qed.

Lemma append_nonempty (a b : string) : b <> "" -> a ++ b <> "".
Proof. destruct a; simpl; [auto | discriminate]. Qed.

(** X8: the way to invoke pyright has an empty argument prefix exactly
    when its display name is empty; and a prefix that is not empty is the
    one executable found on the search path, whose name is then the display
    name, or the running interpreter with [-m pyright]. *)
Theorem X8_invocation_prefix_and_display (w : World) :
  (fst (_build_pyright_argv w) = [] <-> snd (_build_pyright_argv w) = "") /\
  (fst (_build_pyright_argv w) = [snd (_build_pyright_argv w)] /\
   shutil_which w "pyright" = Some (snd (_build_pyright_argv w)) \/
   fst (_build_pyright_argv w) = [sys_executable w; "-m"; "pyright"] \/
   fst (_build_pyright_argv w) = []).
Proof.
  destruct (build_pyright_argv_cases w) as [(exe & Hw & Hne & ->)|[-> | ->]]; simpl.
  - split; [split; [discriminate | intros; contradiction] | auto].
  - split; [|auto]. split; [discriminate|].
    intros H. exfalso. revert H. apply append_nonempty. discriminate.
  - split; [tauto | auto].
Qed.

(** X9: in the version information, the flag [supports_outputjson] is what
    [_supports_outputjson] says of the version text that is reported, the
    executable path is the display name of the invocation (the first
    argument is never needed in its place), and all three fields are empty
    or false when pyright cannot be invoked. *)
Theorem X9_version_info_consistent (w : World) :
  supports_outputjson (get_pyright_version w)
  = _supports_outputjson (version (get_pyright_version w)) /\
  executable_path (get_pyright_version w) = snd (_build_pyright_argv w) /\
  (fst (_build_pyright_argv w) = [] ->
   get_pyright_version w
   = {| version := ""; executable_path := ""; supports_outputjson := false |}).
Proof.
  unfold get_pyright_version.
  destruct (build_pyright_argv_cases w) as [(exe & Hw & Hne & ->)|[-> | ->]];
    cbn [fst snd].
  - assert (E : String.eqb exe "" = false) by now apply String.eqb_neq.
    rewrite E.
    destruct (subprocess_run w _ None 10); cbn; repeat split; discriminate.
  - assert (E : String.eqb (sys_executable w ++ " -m pyright") "" = false).
    { apply String.eqb_neq, append_nonempty. discriminate. }
    rewrite E.
    destruct (subprocess_run w _ None 10); cbn; repeat split; discriminate.
  - repeat split.
Qed.

(** *** The version text *)

Lemma span_digits_spec (cs ds rest : list ascii) :
  span_digits cs = (ds, rest) ->
  cs = (ds ++ rest)%list /\ forallb is_digit ds = true /\
  match rest with c :: _ => is_digit c = false | [] => True end.
Proof.
  revert ds rest. induction cs as [|c cs IH]; simpl; intros ds rest H.
  - injection H as <- <-. auto.
  - destruct (is_digit c) eqn:Ec.
    + destruct (span_digits cs) as [ds' rest'] eqn:E. injection H as <- <-.
      destruct (IH ds' rest' eq_refl) as (-> & Hd & Hr).
      simpl. rewrite Ec. auto.
    + injection H as <- <-. simpl. auto.
Qed.

Lemma span_digits_app (ds rest : list ascii) :
  forallb is_digit ds = true ->
  match rest with c :: _ => is_digit c = false | [] => True end ->
  span_digits (ds ++ rest) = (ds, rest).
Proof.
  intros Hd Hr. induction ds as [|c ds IH]; simpl in *.
  - destruct rest as [|c rest]; [reflexivity|]. simpl. now rewrite Hr.
  - apply andb_true_iff in Hd. destruct Hd as [Hc Hd]. rewrite Hc, IH; auto.
Qed.

(** What [match_semver] matches is a prefix of the text, and is matched
    again, with nothing left over, when taken alone. *)
Lemma match_semver_spec (cs m rest : list ascii) :
  match_semver cs = Some (m, rest) ->
  cs = (m ++ rest)%list /\ match_semver m = Some (m, []).
Proof.
  unfold match_semver.
  destruct (span_digits cs) as [d1 r1] eqn:E1.
  destruct d1 as [|a1 d1]; [discriminate|].
  destruct r1 as [|c1 r1]; [discriminate|].
  destruct (Ascii.eqb_spec c1 "."%char) as [->|Hc1];
    [|destruct c1 as [[] [] [] [] [] [] [] []]; try discriminate; now contradiction Hc1].
  destruct (span_digits r1) as [d2 r2] eqn:E2.
  destruct d2 as [|a2 d2]; [discriminate|].
  destruct r2 as [|c2 r2]; [discriminate|].
  destruct (Ascii.eqb_spec c2 "."%char) as [->|Hc2];
    [|destruct c2 as [[] [] [] [] [] [] [] []]; try discriminate; now contradiction Hc2].
  destruct (span_digits r2) as [d3 r3] eqn:E3.
  destruct d3 as [|a3 d3]; [discriminate|].
  intros H. injection H as <- <-.
  apply span_digits_spec in E1, E2, E3.
  destruct E1 as (-> & D1 & _), E2 as (-> & D2 & _), E3 as (-> & D3 & _).
  split.
  - simpl. rewrite <- !app_assoc. simpl. rewrite <- !app_assoc. reflexivity.
  - pose proof (span_digits_app (a3 :: d3) [] D3 I) as E3.
    rewrite app_nil_r in E3.
    pose proof (span_digits_app (a2 :: d2) ("."%char :: a3 :: d3) D2 eq_refl) as E2.
    pose proof (span_digits_app (a1 :: d1)
                  ("."%char :: a2 :: d2 ++ "."%char :: a3 :: d3) D1 eq_refl) as E1.
    cbn [app] in E1, E2 |- *. rewrite E1, E2, E3. reflexivity.
Qed.

(** What the search finds occurs in the text and is a version on its own. *)
Lemma search_semver_spec (prev : bool) (cs m : list ascii) :
  search_semver prev cs = Some m ->
  (exists pre post, cs = (pre ++ m ++ post)%list) /\ match_semver m = Some (m, []).
Proof.
  revert prev. induction cs as [|c cs IH]; intros prev; [discriminate|].
  cbn [search_semver].
  assert (Hrec : search_semver (is_word c) cs = Some m ->
                 (exists pre post, c :: cs = (pre ++ m ++ post)%list) /\
                 match_semver m = Some (m, [])).
  { intros H. destruct (IH _ H) as [(pre & post & ->) Hm].
    split; [|exact Hm]. now exists (c :: pre), post. }
  destruct prev; [exact Hrec|].
  destruct (match_semver (c :: cs)) as [[m' rest]|] eqn:E; [|exact Hrec].
  destruct (match_semver_spec _ _ _ E) as [Hcs Hm'].
  assert (Hhere : Some m' = Some m ->
                  (exists pre post, c :: cs = (pre ++ m ++ post)%list) /\
                  match_semver m = Some (m, [])).
  { intros H. injection H as <-. split; [|exact Hm']. now exists [], rest. }
  destruct rest as [|x rest]; [exact Hhere|].
  destruct (is_word x); [exact Hrec | exact Hhere].
Qed.

Lemma chars_text (cs : list ascii) : chars (text cs) = cs.
Proof. apply list_ascii_of_string_of_list_ascii. Qed.

Lemma text_chars (s : string) : text (chars s) = s.
Proof. apply string_of_list_ascii_of_string. Qed.

Lemma text_app (a b : list ascii) : text (a ++ b) = text a ++ text b.
Proof. induction a as [|c a IH]; simpl; [reflexivity | now rewrite IH]. Qed.

(** X10: when the output of [pyright --version] holds a version, three
    runs of digits joined by dots and standing as a word of their own, the
    version text that is extracted is a part of that output, is accepted by
    [_supports_outputjson], and is left as it is when extracted from again;
    else the version text is the whole output without the white space at its
    ends. *)
Theorem X10_version_text (s : string) :
  (contains s (_parse_version_string s) /\
   _supports_outputjson (_parse_version_string s) = true /\
   _parse_version_string (_parse_version_string s) = _parse_version_string s) \/
  _parse_version_string s = text (strip (chars s)).
Proof.
  destruct (search_semver false (chars s)) as [m|] eqn:E.
  - left.
    assert (Hp : _parse_version_string s = text m)
      by (unfold _parse_version_string; now rewrite E).
    rewrite !Hp.
    destruct (search_semver_spec _ _ _ E) as [(pre & post & Hs) Hm].
    split; [|split].
    + exists (text pre), (text post). rewrite <- !text_app, <- Hs.
      now rewrite text_chars.
    + unfold _supports_outputjson. now rewrite chars_text, Hm.
    + unfold _parse_version_string. rewrite chars_text.
      destruct m as [|c m]; [discriminate Hm|].
      cbn [search_semver]. now rewrite Hm.
  - right. unfold _parse_version_string. now rewrite E.
Qed.

(** ** The environment path *)

(** X11: the environment path that is detected does not depend on the
    prefix of the base interpreter: it is the resolved [VIRTUAL_ENV] when
    that is set and not empty, and the resolved [sys.prefix] otherwise,
    inside a virtual environment or not. *)
Theorem X11_venv_path_ignores_base_prefix (w : World) (b : string) :
  _detect_venv_path (with_base_prefix w b) = _detect_venv_path w /\
  (nonempty_str (environ_VIRTUAL_ENV w) = None ->
   forall p, Path_resolve w (Path_of_str (sys_prefix w)) = Ok p ->
             _detect_venv_path w = Path_str p).
Proof.
  unfold _detect_venv_path, resolved_str. cbn [with_base_prefix environ_VIRTUAL_ENV
    sys_prefix sys_base_prefix Path_resolve Path_cwd].
  split.
  - destruct (nonempty_str (environ_VIRTUAL_ENV w)); [reflexivity|].
    destruct (Path_resolve w (Path_of_str (sys_prefix w))); cbn [bind];
      repeat match goal with |- context [if ?c then _ else _] => destruct c end;
      reflexivity.
  - intros -> p ->. cbn [bind].
    repeat match goal with |- context [if ?c then _ else _] => destruct c end;
      reflexivity.
Qed.

(** ** The expansion of include and exclude patterns *)

Lemma filter_excluded_spec (w : World) (relroot : Path) (exs : list string)
  (paths kept : list Path) :
  filter_excluded w relroot exs paths = Ok kept ->
  kept = filter (fun p => negb (is_excluded w relroot exs p)) paths /\
  Forall (fun p => exists rel, rel_posix_of w relroot p = Ok rel) paths.
Proof.
  revert kept. induction paths as [|p paths IH]; simpl; intros kept H.
  - injection H as <-. auto.
  - unfold is_excluded at 1. steps H. injection H as <-.
    destruct (IH _ eq_refl) as [-> Hall].
    split; [now destruct (matches_any _ _ exs) | constructor; eauto].
Qed.

Lemma matches_any_false (rel name : string) (exs : list string) :
  matches_any rel name exs = false ->
  forall ex, In ex exs -> fnmatch rel ex = false /\ fnmatch name ex = false.
Proof.
  unfold matches_any. intros H ex Hin.
  destruct (fnmatch rel ex || fnmatch name ex) eqn:E.
  - assert (Ht : existsb (fun ex => fnmatch rel ex || fnmatch name ex) exs = true)
      by (apply existsb_exists; eauto).
    congruence.
  - now apply orb_false_iff in E.
Qed.

(** X12: with exclude patterns, what the expansion returns is what it
    returns without them, in the same order, less the paths that a pattern
    matches; no path that is returned has a name, or a name relative to the
    root, that matches one of the exclude patterns. *)
Theorem X12_exclude_filters_expansion
  (w : World) (root relroot : Path) (include exclude : option (list string))
  (exs : list string) (kept : list Path) :
  nonempty_list exclude = Some exs ->
  Path_resolve w root = Ok relroot ->
  _iter_included_paths w root include exclude = Ok kept ->
  exists all,
    _iter_included_paths w root include None = Ok all /\
    kept = filter (fun p => negb (is_excluded w relroot exs p)) all /\
    forall p ex, In p kept -> In ex exs ->
                 fnmatch (Path_name p) ex = false /\
                 exists rel, rel_posix_of w relroot p = Ok rel /\
                             fnmatch rel ex = false.
Proof.
  unfold _iter_included_paths. intros Hex Hroot H. rewrite Hex in H.
  cbn [nonempty_list].
  destruct (match nonempty_list include with
            | Some pats => expand_includes w root [] pats
            | None => r <- Path_resolve w root;; Ok [r]
            end) as [all|e] eqn:E; cbn [bind] in H |- *; [|discriminate H].
  rewrite Hroot in H. cbn [bind] in H.
  exists all. split; [reflexivity|].
  apply filter_excluded_spec in H. destruct H as [H Hall].
  split; [exact H|].
  intros p ex Hp Hin. rewrite H in Hp. apply filter_In in Hp.
  destruct Hp as [Hp Hne]. apply negb_true_iff in Hne. unfold is_excluded in Hne.
  rewrite Forall_forall in Hall. destruct (Hall p Hp) as [rel Hrel].
  rewrite Hrel in Hne.
  destruct (matches_any_false _ _ _ Hne ex Hin) as [H1 H2].
  split; [exact H2|]. exists rel. auto.
Qed.

Lemma X12_witness :
  exists all,
    _iter_included_paths sample_world (Path_of_str "/work/proj") (Some ["pkg*"]) None
    = Ok all /\
    map Path_str all
    = ["/work/proj/pkg.py"; "/work/proj/pkg/mod.py"] /\
    _iter_included_paths sample_world (Path_of_str "/work/proj") (Some ["pkg*"])
      (Some ["pkg/*"])
    = Ok (filter (fun p => negb (is_excluded sample_world (Path_of_str "/work/proj")
                                  ["pkg/*"] p)) all).
Proof.
  destruct (X12_exclude_filters_expansion sample_world
              (Path_of_str "/work/proj") (Path_of_str "/work/proj")
              (Some ["pkg*"]) (Some ["pkg/*"]) ["pkg/*"]
              [Path_of_str "/work/proj/pkg.py"])
    as (all & Hall & Hkept & _).
  - reflexivity.
  - reflexivity.
  - vm_compute. reflexivity.
  - exists all. split; [exact Hall|].
    assert (E : _iter_included_paths sample_world (Path_of_str "/work/proj")
                  (Some ["pkg*"]) None
                = Ok [Path_of_str "/work/proj/pkg.py"; Path_of_str "/work/proj/pkg/mod.py"])
      by (vm_compute; reflexivity).
    rewrite E in Hall. injection Hall as <-.
    split; [reflexivity|]. vm_compute. reflexivity.
Defined.

(** What is in a set is what was added to it or was there before. *)
Lemma set_add_in (p q : Path) (s : list Path) :
  In q (set_add p s) -> q = p \/ In q s.
Proof.
  unfold set_add. destruct (existsb (Path_eqb p) s); [auto|].
  rewrite in_app_iff. simpl. intuition.
Qed.

Section Expansion.
Variable w : World.

Lemma collected_add (f r : Path) (found : list Path) :
  Path_is_file w f = true -> Path_resolve w f = Ok r ->
  collected w found -> collected w (set_add r found).
Proof.
  intros Hf Hr [Hn Hall]. split; [now apply set_add_nodup|].
  rewrite Forall_forall in *. intros q Hq.
  apply set_add_in in Hq. destruct Hq as [->|Hq]; eauto.
Qed.

Lemma add_files_collected (fs found found' : list Path) :
  add_files w found fs = Ok found' -> collected w found -> collected w found'.
Proof.
  revert found. induction fs as [|f fs IH]; simpl; intros found H Hc.
  - now injection H as <-.
  - steps H; eauto using collected_add.
Qed.

Lemma add_matches_collected (ps found found' : list Path) :
  add_matches w found ps = Ok found' -> collected w found -> collected w found'.
Proof.
  revert found. induction ps as [|p ps IH]; simpl; intros found H Hc.
  - now injection H as <-.
  - steps H; eauto using collected_add, add_files_collected.
Qed.

Lemma expand_includes_collected (root : Path) (pats : list string)
  (found found' : list Path) :
  expand_includes w root found pats = Ok found' -> collected w found -> collected w found'.
Proof.
  revert found. induction pats as [|pat pats IH]; simpl; intros found H Hc.
  - now injection H as <-.
  - steps H. eauto using add_matches_collected.
Qed.

Lemma collected_filter (keep : Path -> bool) (found : list Path) :
  collected w found -> collected w (filter keep found).
Proof.
  intros [Hn Hall]. split.
  - clear Hall. induction found as [|p found IH]; simpl in *; [constructor|].
    inversion Hn as [|k ks Hnotin Hn']; subst.
    destruct (keep p); simpl; [|auto].
    constructor; [|auto]. intros Hin. apply Hnotin.
    apply in_map_iff in Hin. destruct Hin as (q & Hq & Hin).
    apply filter_In in Hin. rewrite <- Hq. apply in_map. tauto.
  - rewrite Forall_forall in *. intros q Hq. apply filter_In in Hq. apply Hall. tauto.
Qed.

End Expansion.

(** X13: with include patterns, every path that the expansion returns is
    the resolved path of something that is a file, found by a pattern or
    below a directory found by one, and no path is returned twice; the
    directories themselves are never returned. *)
Theorem X13_include_expands_to_files
  (w : World) (root : Path) (include exclude : option (list string))
  (pats : list string) (paths : list Path) :
  nonempty_list include = Some pats ->
  _iter_included_paths w root include exclude = Ok paths ->
  NoDup (map Path_cparts paths) /\
  Forall (fun p => exists f, Path_is_file w f = true /\ Path_resolve w f = Ok p) paths.
Proof.
  unfold _iter_included_paths. intros Hinc H. rewrite Hinc in H.
  destruct (expand_includes w root [] pats) as [all|e] eqn:E; cbn [bind] in H;
    [|discriminate H].
  assert (Hall : collected w all).
  { apply (expand_includes_collected w root pats [] all E).
    split; constructor. }
  destruct (nonempty_list exclude) as [exs|].
  - steps H. apply filter_excluded_spec in H. destruct H as [-> _].
    now apply collected_filter.
  - now injection H as <-.
Qed.

Lemma X13_witness :
  NoDup (map Path_cparts
           [Path_of_str "/work/proj/pkg.py"; Path_of_str "/work/proj/pkg/mod.py"]) /\
  Forall (fun p => exists f, Path_is_file sample_world f = true /\
                             Path_resolve sample_world f = Ok p)
         [Path_of_str "/work/proj/pkg.py"; Path_of_str "/work/proj/pkg/mod.py"].
Proof.
  apply (X13_include_expands_to_files sample_world (Path_of_str "/work/proj")
           (Some ["pkg*"]) None ["pkg*"]).
  - reflexivity.
  - vm_compute. reflexivity.
Defined.

(** ** The orchestrator, branch by branch *)

(** What a result with a command is made of, by the way the run of that
    command ended. *)
Lemma run_check_outcome (w : World) (params : PyrightCheckParams) (r : CheckResult)
  (o : proc_outcome) :
  run_check w params = Ok r ->
  command r <> [] ->
  subprocess_run w (command r) (Some (analyzed_root r)) (timeout_sec params) = o ->
  match o with
  | TimeoutExpired =>
      r = failed (timeout_reason (timeout_sec params)) (command r) (-1)
                 (version (get_pyright_version w)) (analyzed_root r)
                 (checked_paths r) (venv_path r)
  | FileNotFoundError =>
      r = failed spawn_reason (command r) (-1)
                 (version (get_pyright_version w)) (analyzed_root r)
                 (checked_paths r) (venv_path r)
  | SpawnError _ => False
  | Completed rc out err =>
      exists parsed,
        parse_pyright_json w out = Ok parsed /\
        match parsed with
        | None =>
            r = failed (parse_reason
                          (tail_excerpt_of
                             (text (strip (chars (out ++ newline ++ err))))))
                       (command r) rc
                       (version (get_pyright_version w)) (analyzed_root r)
                       (checked_paths r) (venv_path r)
        | Some parsed =>
            exists items normalized,
              py_iter (py_or (dict_get_default parsed "generalDiagnostics" (PList []))
                             (PList [])) = Ok items /\
              mapM (_normalize_diag w) items = Ok normalized /\
              diagnostics r = sort_diags normalized /\
              normalize_summary
                (py_or (dict_get_default parsed "summary" (PDict [])) (PDict []))
              = Ok (summary r) /\
              _compute_threshold_ok (diagnostics r) (fail_on_severity params)
              = Ok (ok r, fail_reason r) /\
              exit_code r = rc /\
              pyright_version r
              = py_str (py_or (dict_get_none parsed "version")
                              (PStr (version (get_pyright_version w))))
        end
  end.
Proof.
  unfold run_check. intros H Hcmd Hrun.
  steps H; injection H as <-;
    try (exfalso; apply Hcmd; reflexivity);
    match goal with
    | E : subprocess_run _ _ _ _ = _ |- _ =>
        pose proof (eq_trans (eq_sym E) Hrun) as Hx; clear Hrun; subst o
    end;
    first [ reflexivity
          | eexists; split; [eassumption|]; first [ reflexivity | idtac ] ].
  do 2 eexists. repeat (split; [eassumption || reflexivity |]). reflexivity.
Qed.

(** The evaluator gives a reason exactly when the verdict is not ok. *)
Lemma threshold_reason_iff (diags : list DiagnosticOut) (threshold : string)
  (b : bool) (reason : option string) :
  _compute_threshold_ok diags threshold = Ok (b, reason) ->
  (b = true <-> reason = None).
Proof.
  unfold _compute_threshold_ok. intros H.
  steps H; injection H as <- <-; split; (reflexivity || discriminate).
Qed.

(** What every result carries, whatever the branch it comes from. *)
Lemma run_check_context (w : World) (params : PyrightCheckParams) (r : CheckResult) :
  run_check w params = Ok r ->
  venv_path r = _detect_venv_path w /\
  (exists p, Path_resolve w (root_to_resolve w params) = Ok p /\
             analyzed_root r = Path_str p) /\
  (command r = [] \/
   command r
   = (fst (_build_pyright_argv w) ++ ["--outputjson"] ++ extra_of params
      ++ checked_paths r)%list).
Proof.
  unfold run_check, root_to_resolve, root_for_globs_of, extra_of. intros H.
  destruct (Path_exists w (Path_of_str (target params))); cbn [negb andb] in H |- *;
    destruct (nonempty_str (cwd params));
    destruct (Path_is_dir w (Path_of_str (target params))).
  all: steps H; injection H as <-;
    cbn [venv_path analyzed_root command checked_paths failed fst];
    (split; [reflexivity|]);
    (split; [eexists; split; [reflexivity || eassumption | reflexivity]|]);
    first [ left; reflexivity
          | right; cbn [app]; rewrite <- ?app_assoc; reflexivity ].
Qed.

(** X14: in every result the verdict and the reason go together: the
    result is ok exactly when it has no reason for failure; and a result
    that is ok comes from a command that was run. *)
Theorem X14_ok_and_reason (w : World) (params : PyrightCheckParams) (r : CheckResult) :
  run_check w params = Ok r ->
  (ok r = true <-> fail_reason r = None) /\
  (ok r = true -> command r <> []).
Proof.
  unfold run_check. intros H.
  steps H; injection H as <-; cbn [ok fail_reason command failed];
    try (split; [split; discriminate | discriminate]).
  split.
  - eapply threshold_reason_iff. eassumption.
  - intros _. destruct l0; discriminate.
Qed.

Lemma X14_witness :
  (ok sample_result = true <-> fail_reason sample_result = None) /\
  (ok sample_result = true -> command sample_result <> []).
Proof.
  apply (X14_ok_and_reason sample_world sample_request). vm_compute. reflexivity.
Defined.

(** X15: when the target exists but pyright can be invoked in neither way,
    the result is a failure with the exit code -1, an empty command, an
    empty version, no diagnostics and a zero summary, and its reason says
    that pyright is not available. *)
Theorem X15_pyright_unavailable (w : World) (params : PyrightCheckParams) (r : CheckResult) :
  run_check w params = Ok r ->
  Path_exists w (Path_of_str (target params)) = true ->
  fst (_build_pyright_argv w) = [] ->
  r = failed unavailable_reason [] (-1) "" (analyzed_root r) (checked_paths r)
             (_detect_venv_path w).
Proof.
  unfold run_check. intros H Hex Hno. rewrite Hex in H. cbn [negb] in H.
  steps H; injection H as <-; cbn [fst] in Hno; subst;
    try discriminate Hno; reflexivity.
Qed.

Lemma X15_witness :
  run_check world_without_pyright sample_request = Ok unavailable_result /\
  unavailable_result
  = failed unavailable_reason [] (-1) "" "/work/proj" ["/work/proj"] "/usr".
Proof.
  assert (H : run_check world_without_pyright sample_request = Ok unavailable_result)
    by (vm_compute; reflexivity).
  split; [exact H|].
  apply (X15_pyright_unavailable world_without_pyright sample_request
           unavailable_result H); reflexivity.
Defined.

(** X16: when the check does not end within the time allowed, the result
    is a failure with the exit code -1 that keeps the command and the
    checked paths, has no diagnostics and a zero summary, carries the
    version that was probed, and gives as its reason the text that starts
    with "Timeout after", the number of seconds of the request and "s". *)
Theorem X16_timeout (w : World) (params : PyrightCheckParams) (r : CheckResult) :
  run_check w params = Ok r ->
  command r <> [] ->
  subprocess_run w (command r) (Some (analyzed_root r)) (timeout_sec params)
  = TimeoutExpired ->
  r = failed (timeout_reason (timeout_sec params)) (command r) (-1)
             (version (get_pyright_version w)) (analyzed_root r)
             (checked_paths r) (venv_path r) /\
  exists rest,
    fail_reason r
    = Some ("Timeout after " ++ Z_to_str (timeout_sec params) ++ "s" ++ rest).
Proof.
  intros H Hcmd Hrun.
  pose proof (run_check_outcome w params r _ H Hcmd Hrun) as Hr. cbn beta iota in Hr.
  split; [exact Hr|]. rewrite Hr. cbn [fail_reason failed]. unfold timeout_reason.
  eexists. reflexivity.
Qed.

Lemma X16_witness :
  run_check world_timing_out sample_request = Ok timed_out_result /\
  exists rest, fail_reason timed_out_result = Some ("Timeout after 60s" ++ rest).
Proof.
  assert (H : run_check world_timing_out sample_request = Ok timed_out_result)
    by (vm_compute; reflexivity).
  split; [exact H|].
  destruct (X16_timeout world_timing_out sample_request timed_out_result H)
    as [_ Hreason]; [discriminate | reflexivity | exact Hreason].
Defined.

(** X17: when the executable is not found at the moment the check is
    started, the result is a failure with the exit code -1 and the reason
    that pyright could not be executed; it keeps the command and the checked
    paths and carries the version that was probed. *)
Theorem X17_executable_vanished
  (w : World) (params : PyrightCheckParams) (r : CheckResult) :
  run_check w params = Ok r ->
  command r <> [] ->
  subprocess_run w (command r) (Some (analyzed_root r)) (timeout_sec params)
  = FileNotFoundError ->
  r = failed spawn_reason (command r) (-1)
             (version (get_pyright_version w)) (analyzed_root r)
             (checked_paths r) (venv_path r).
Proof.
  intros H Hcmd Hrun.
  exact (run_check_outcome w params r _ H Hcmd Hrun).
Qed.

Lemma X17_witness :
  run_check world_vanishing sample_request = Ok vanished_result /\
  vanished_result
  = failed spawn_reason ["/usr/bin/pyright"; "--outputjson"; "/work/proj"] (-1)
           "1.1.405" "/work/proj" ["/work/proj"] "/usr".
Proof.
  assert (H : run_check world_vanishing sample_request = Ok vanished_result)
    by (vm_compute; reflexivity).
  split; [exact H|].
  apply (X17_executable_vanished world_vanishing sample_request vanished_result H);
    [discriminate | reflexivity].
Defined.

(** *** The excerpt of an output that does not parse *)

Lemma lstrip_suffix (cs : list ascii) : exists pre, cs = (pre ++ lstrip cs)%list.
Proof.
  induction cs as [|c cs [pre IH]]; simpl.
  - now exists [].
  - destruct (is_space c); [|now exists []].
    exists (c :: pre). simpl. now rewrite <- IH.
Qed.

Lemma strip_part (cs : list ascii) :
  exists pre post, cs = (pre ++ strip cs ++ post)%list.
Proof.
  unfold strip, rstrip.
  destruct (lstrip_suffix cs) as [pre Hpre].
  destruct (lstrip_suffix (rev (lstrip cs))) as [post Hpost].
  exists pre, (rev post). rewrite <- rev_app_distr, <- Hpost, rev_involutive.
  exact Hpre.
Qed.

Lemma drop_continuations_suffix (cs : list ascii) :
  exists pre, cs = (pre ++ drop_continuations cs)%list.
Proof.
  induction cs as [|c cs [pre IH]]; simpl.
  - now exists [].
  - destruct (is_continuation c); [|now exists []].
    exists (c :: pre). simpl. now rewrite <- IH.
Qed.

Lemma drop_code_points_suffix (n : nat) (cs : list ascii) :
  exists pre, cs = (pre ++ drop_code_points n cs)%list.
Proof.
  revert cs. induction n as [|n IH]; intros cs; simpl.
  - now exists [].
  - destruct cs as [|c cs]; [now exists []|].
    destruct (drop_continuations_suffix cs) as [p1 H1].
    destruct (IH (drop_continuations cs)) as [p2 H2].
    exists (c :: p1 ++ p2)%list. simpl. rewrite <- app_assoc, <- H2, <- H1.
    reflexivity.
Qed.

Lemma append_assoc (a b c : string) : (a ++ b) ++ c = a ++ b ++ c.
Proof. induction a as [|x a IH]; simpl; [reflexivity | now rewrite IH]. Qed.

(** The number of code points in a list of bytes. *)
Lemma str_len_text (cs : list ascii) :
  str_len (text cs)
  = List.length (filter (fun c => negb (is_continuation c)) cs).
Proof. unfold str_len. now rewrite chars_text. Qed.

Lemma drop_continuations_count (cs : list ascii) :
  List.length (filter (fun c => negb (is_continuation c)) (drop_continuations cs))
  = List.length (filter (fun c => negb (is_continuation c)) cs) /\
  match drop_continuations cs with
  | c :: _ => is_continuation c = false
  | [] => True
  end.
Proof.
  induction cs as [|c cs IH]; simpl; [auto|].
  destruct (is_continuation c) eqn:E; simpl; [exact IH|].
  rewrite E. simpl. auto.
Qed.

Lemma drop_code_points_count (n : nat) (cs : list ascii) :
  match cs with c :: _ => is_continuation c = false | [] => True end ->
  List.length (filter (fun c => negb (is_continuation c)) (drop_code_points n cs))
  = (List.length (filter (fun c => negb (is_continuation c)) cs) - n)%nat.
Proof.
  revert cs. induction n as [|n IH]; intros cs Hcs; simpl.
  - now rewrite Nat.sub_0_r.
  - destruct cs as [|c cs]; [reflexivity|]. simpl. rewrite Hcs. simpl.
    destruct (drop_continuations_count cs) as [Hc Hs].
    rewrite IH by exact Hs. now rewrite Hc.
Qed.

(** The excerpt is a final part of the text, of at most 1000 code points. *)
Lemma tail_excerpt_spec (s : string) :
  starts_code_point s = true ->
  (exists pre, s = pre ++ tail_excerpt_of s) /\
  (str_len (tail_excerpt_of s) <= 1000)%nat /\
  ((str_len s <= 1000)%nat -> tail_excerpt_of s = s).
Proof.
  intros Hs. unfold tail_excerpt_of.
  destruct (Nat.ltb_spec 1000 (str_len s)) as [Hlt|Hle].
  - split; [|split; [|lia]].
    + destruct (drop_code_points_suffix (str_len s - 1000) (chars s)) as [pre Hpre].
      exists (text pre). rewrite <- text_app, <- Hpre. now rewrite text_chars.
    + rewrite str_len_text, drop_code_points_count.
      * fold (str_len s). lia.
      * unfold starts_code_point in Hs. destruct (chars s); [exact I|].
        now apply negb_true_iff in Hs.
  - split; [now exists "" | split; [exact Hle | reflexivity]].
Qed.

(** X18: when pyright ends but what it prints is no report, the result is
    a failure that keeps pyright's own exit code, the command and the
    checked paths, and carries the version that was probed; its reason is
    the fixed text about the parse failure followed by an excerpt, which is
    a part of the standard output, a line feed and the standard error, and
    is at most 1000 characters long. *)
Theorem X18_unparsed_output
  (w : World) (params : PyrightCheckParams) (r : CheckResult)
  (rc : Z) (out err : string) :
  run_check w params = Ok r ->
  command r <> [] ->
  subprocess_run w (command r) (Some (analyzed_root r)) (timeout_sec params)
  = Completed rc out err ->
  parse_pyright_json w out = Ok None ->
  starts_code_point (text (strip (chars (out ++ newline ++ err)))) = true ->
  exists excerpt,
    r = failed (parse_reason excerpt) (command r) rc
               (version (get_pyright_version w)) (analyzed_root r)
               (checked_paths r) (venv_path r) /\
    contains (out ++ newline ++ err) excerpt /\
    (str_len excerpt <= 1000)%nat.
Proof.
  intros H Hcmd Hrun Hparse Hstart.
  destruct (run_check_outcome w params r _ H Hcmd Hrun) as (parsed & Hp & Hr).
  rewrite Hparse in Hp. injection Hp as <-.
  eexists. split; [exact Hr|].
  destruct (tail_excerpt_spec _ Hstart) as ([pre Hpre] & Hlen & _).
  split; [|exact Hlen].
  destruct (strip_part (chars (out ++ newline ++ err))) as (p1 & p2 & Hs).
  exists (text p1 ++ pre), (text p2).
  rewrite <- (text_chars (out ++ newline ++ err)), Hs at 1.
  rewrite !text_app, Hpre at 1.
  rewrite !append_assoc. reflexivity.
Qed.

Lemma X18_witness :
  run_check world_garbled sample_request = Ok garbled_result /\
  exists excerpt,
    garbled_result
    = failed (parse_reason excerpt)
             ["/usr/bin/pyright"; "--outputjson"; "/work/proj"] 2
             "1.1.405" "/work/proj" ["/work/proj"] "/usr" /\
    contains ("not-json" ++ newline ++ "usage: pyright") excerpt /\
    (str_len excerpt <= 1000)%nat.
Proof.
  assert (H : run_check world_garbled sample_request = Ok garbled_result)
    by (vm_compute; reflexivity).
  split; [exact H|].
  apply (X18_unparsed_output world_garbled sample_request garbled_result
           2 "not-json" "usage: pyright" H);
    [discriminate | reflexivity | vm_compute; reflexivity | reflexivity].
Defined.

(** *** A run that ends *)

(** X19: whenever the check process ends, the exit code of the result is
    the return code of that process, whether its output parses or not and
    whatever the verdict is. *)
Theorem X19_exit_code_is_return_code
  (w : World) (params : PyrightCheckParams) (r : CheckResult)
  (rc : Z) (out err : string) :
  run_check w params = Ok r ->
  command r <> [] ->
  subprocess_run w (command r) (Some (analyzed_root r)) (timeout_sec params)
  = Completed rc out err ->
  exit_code r = rc.
Proof.
  intros H Hcmd Hrun.
  destruct (run_check_outcome w params r _ H Hcmd Hrun) as (parsed & Hp & Hr).
  destruct parsed as [parsed|].
  - destruct Hr as (items & normalized & _ & _ & _ & _ & _ & Hrc & _). exact Hrc.
  - rewrite Hr. reflexivity.
Qed.

Lemma X19_witness :
  exit_code sample_include_result = 1 /\ ok sample_include_result = true /\
  exit_code garbled_result = 2.
Proof.
  split; [|split; [reflexivity|]].
  - apply (X19_exit_code_is_return_code sample_world sample_include
             sample_include_result 1 sample_report "");
      [vm_compute; reflexivity | discriminate | reflexivity].
  - apply (X19_exit_code_is_return_code world_garbled sample_request
             garbled_result 2 "not-json" "usage: pyright");
      [vm_compute; reflexivity | discriminate | reflexivity].
Defined.

(** X20: when the output parses, the verdict of the result is a matter of
    the diagnostics that are returned and of the threshold alone: under
    "none" the result is ok, and under a threshold of the table it is not
    ok exactly when one of its diagnostics has a severity level at or above
    the level of the threshold; the exit code of pyright and the counts of
    the summary play no part. *)
Theorem X20_verdict_of_result
  (w : World) (params : PyrightCheckParams) (r : CheckResult)
  (rc : Z) (out err : string) (parsed : pydict) :
  run_check w params = Ok r ->
  command r <> [] ->
  subprocess_run w (command r) (Some (analyzed_root r)) (timeout_sec params)
  = Completed rc out err ->
  parse_pyright_json w out = Ok (Some parsed) ->
  (fail_on_severity params = "none" -> ok r = true) /\
  (forall th, In (fail_on_severity params, th) SEVERITY_LEVEL ->
              (ok r = false <->
               Exists (fun d => th <= severity_level d) (diagnostics r))).
Proof.
  intros H Hcmd Hrun Hparse.
  destruct (run_check_outcome w params r _ H Hcmd Hrun) as (parsed' & Hp & Hr).
  rewrite Hparse in Hp. injection Hp as <-.
  destruct Hr as (items & normalized & _ & _ & _ & _ & Hv & _).
  split.
  - intros Hnone. rewrite Hnone in Hv. cbn in Hv. congruence.
  - intros th Hin.
    destruct (threshold_verdict (diagnostics r) _ th Hin) as [reason Hv'].
    rewrite Hv in Hv'. injection Hv' as Hok _. rewrite Hok.
    pose proof (level_positive _ _ Hin) as Hth.
    rewrite <- (max_level_exists th (diagnostics r) Hth).
    rewrite negb_false_iff, andb_true_iff, Z.leb_le, Z.ltb_lt. lia.
Qed.

Lemma X20_witness :
  (fail_on_severity sample_request = "none" -> ok sample_result = true) /\
  (forall th, In (fail_on_severity sample_request, th) SEVERITY_LEVEL ->
              (ok sample_result = false <->
               Exists (fun d => th <= severity_level d) (diagnostics sample_result))).
Proof.
  apply (X20_verdict_of_result sample_world sample_request sample_result
           1 sample_report "" sample_parsed);
    [vm_compute; reflexivity | discriminate | reflexivity | vm_compute; reflexivity].
Defined.

(** X21: when the output parses, the diagnostics of the result are the raw
    diagnostics of the report, each normalized, none dropped and none added:
    the list that is returned is a rearrangement of the list of the
    normalized ones, and has the length of the raw list. *)
Theorem X21_one_diagnostic_for_each_raw_one
  (w : World) (params : PyrightCheckParams) (r : CheckResult)
  (rc : Z) (out err : string) (parsed : pydict) :
  run_check w params = Ok r ->
  command r <> [] ->
  subprocess_run w (command r) (Some (analyzed_root r)) (timeout_sec params)
  = Completed rc out err ->
  parse_pyright_json w out = Ok (Some parsed) ->
  exists items normalized,
    py_iter (py_or (dict_get_default parsed "generalDiagnostics" (PList []))
                   (PList [])) = Ok items /\
    Forall2 (fun raw n => _normalize_diag w raw = Ok n) items normalized /\
    Permutation normalized (diagnostics r) /\
    List.length (diagnostics r) = List.length items.
Proof.
  intros H Hcmd Hrun Hparse.
  destruct (run_check_outcome w params r _ H Hcmd Hrun) as (parsed' & Hp & Hr).
  rewrite Hparse in Hp. injection Hp as <-.
  destruct Hr as (items & normalized & Hi & Hm & Hd & _).
  exists items, normalized. apply mapM_Forall2 in Hm.
  assert (Hperm : Permutation normalized (diagnostics r)).
  { rewrite Hd. symmetry. apply sort_perm. }
  repeat split; try assumption.
  rewrite <- (Permutation_length Hperm). symmetry.
  eapply Forall2_length. exact Hm.
Qed.

Lemma X21_witness :
  exists items normalized,
    py_iter (py_or (dict_get_default sample_parsed "generalDiagnostics" (PList []))
                   (PList [])) = Ok items /\
    Forall2 (fun raw n => _normalize_diag sample_world raw = Ok n) items normalized /\
    Permutation normalized (diagnostics sample_result) /\
    List.length (diagnostics sample_result) = List.length items.
Proof.
  apply (X21_one_diagnostic_for_each_raw_one sample_world sample_request sample_result
           1 sample_report "" sample_parsed);
    [vm_compute; reflexivity | discriminate | reflexivity | vm_compute; reflexivity].
Defined.

(** X22: when the output parses, the version in the result is the one the
    report gives, if it gives a text that is not empty, and the version
    that was probed when the report has no version or an empty one. *)
Theorem X22_version_of_report_first
  (w : World) (params : PyrightCheckParams) (r : CheckResult)
  (rc : Z) (out err : string) (parsed : pydict) :
  run_check w params = Ok r ->
  command r <> [] ->
  subprocess_run w (command r) (Some (analyzed_root r)) (timeout_sec params)
  = Completed rc out err ->
  parse_pyright_json w out = Ok (Some parsed) ->
  (forall v, dict_get parsed "version" = Some (PStr v) -> v <> "" ->
             pyright_version r = v) /\
  (dict_get parsed "version" = None \/ dict_get parsed "version" = Some (PStr "") \/
   dict_get parsed "version" = Some PNone ->
   pyright_version r = version (get_pyright_version w)).
Proof.
  intros H Hcmd Hrun Hparse.
  destruct (run_check_outcome w params r _ H Hcmd Hrun) as (parsed' & Hp & Hr).
  rewrite Hparse in Hp. injection Hp as <-.
  destruct Hr as (items & normalized & _ & _ & _ & _ & _ & _ & ->).
  unfold dict_get_none, dict_get_default, py_or. split.
  - intros v -> Hv. cbn [truthy].
    apply String.eqb_neq in Hv. rewrite Hv. reflexivity.
  - intros [->|[->| ->]]; reflexivity.
Qed.

Lemma X22_witness :
  (forall v, dict_get sample_parsed "version" = Some (PStr v) -> v <> "" ->
             pyright_version sample_result = v) /\
  (dict_get sample_parsed "version" = None \/
   dict_get sample_parsed "version" = Some (PStr "") \/
   dict_get sample_parsed "version" = Some PNone ->
   pyright_version sample_result = version (get_pyright_version sample_world)).
Proof.
  apply (X22_version_of_report_first sample_world sample_request sample_result
           1 sample_report "" sample_parsed);
    [vm_compute; reflexivity | discriminate | reflexivity | vm_compute; reflexivity].
Defined.

(** *** The command and the context of a result *)

(** X23: the command of a result, when there is one, is the invocation
    prefix, then [--outputjson], then the pass-through arguments of the
    request in their order, then the checked paths of the result; nothing
    else is passed, and the pass-through arguments cannot displace
    [--outputjson]. *)
Theorem X23_command_shape (w : World) (params : PyrightCheckParams) (r : CheckResult) :
  run_check w params = Ok r ->
  command r <> [] ->
  command r
  = (fst (_build_pyright_argv w) ++ ["--outputjson"] ++ extra_of params
     ++ checked_paths r)%list.
Proof.
  intros H Hcmd.
  destruct (run_check_context w params r H) as (_ & _ & [Hc|Hc]);
    [contradiction | exact Hc].
Qed.

Lemma X23_witness :
  command sample_with_args_result
  = (fst (_build_pyright_argv sample_world) ++ ["--outputjson"]
     ++ extra_of sample_with_args ++ checked_paths sample_with_args_result)%list.
Proof.
  apply (X23_command_shape sample_world sample_with_args);
    [vm_compute; reflexivity | discriminate].
Defined.

(** X24: every result, of whatever branch, names the environment path
    that was detected and, as its analysis root, the resolved working
    directory of the request when one is given and not empty, else the
    resolved target when that is a directory, and the resolved parent of
    the target otherwise. *)
Theorem X24_context_of_result (w : World) (params : PyrightCheckParams) (r : CheckResult) :
  run_check w params = Ok r ->
  venv_path r = _detect_venv_path w /\
  exists p, Path_resolve w (root_to_resolve w params) = Ok p /\
            analyzed_root r = Path_str p.
Proof.
  intros H. destruct (run_check_context w params r H) as (Hv & Hp & _). auto.
Qed.

Lemma X24_witness :
  venv_path sample_from_work_result = _detect_venv_path sample_world /\
  exists p, Path_resolve sample_world (root_to_resolve sample_world sample_from_work)
            = Ok p /\
            analyzed_root sample_from_work_result = Path_str p.
Proof.
  apply (X24_context_of_result sample_world sample_from_work).
  vm_compute. reflexivity.
Defined.

(** X25: an empty list of include patterns, of exclude patterns or of
    pass-through arguments, and an empty working directory, are each taken
    as if none had been given: the run is the same. *)
Theorem X25_empty_is_absent (w : World) (params : PyrightCheckParams) :
  run_check w (with_include params (Some [])) = run_check w (with_include params None) /\
  run_check w (with_exclude params (Some [])) = run_check w (with_exclude params None) /\
  run_check w (with_extra_args params (Some []))
  = run_check w (with_extra_args params None) /\
  run_check w (with_cwd params (Some "")) = run_check w (with_cwd params None).
Proof. repeat split; reflexivity. Qed.

(** ** The command line *)






(** ** Edges of the expansion and of the order *)

(** X28: when include patterns are given and the expansion leaves no path,
    because nothing matches or because all that matches is excluded, the
    result has no checked paths and its command has no path argument at all:
    it ends with [--outputjson] and the pass-through arguments. *)
Theorem X28_empty_expansion_passes_no_path
  (w : World) (params : PyrightCheckParams) (pats : list string)
  (root : Path) (r : CheckResult) :
  nonempty_list (include params) = Some pats ->
  Path_exists w (Path_of_str (target params)) = true ->
  root_for_globs_of w (Path_of_str (target params)) = Ok root ->
  _iter_included_paths w root (include params) (exclude params) = Ok [] ->
  run_check w params = Ok r ->
  checked_paths r = [] /\
  (command r = [] \/
   command r = (fst (_build_pyright_argv w) ++ ["--outputjson"] ++ extra_of params)%list).
Proof.
  intros Hinc Hex Hroot Hit Hr.
  destruct (run_check_paths w params r Hr Hex) as (root' & paths & Hroot' & Hit' & Hp & _).
  rewrite Hroot in Hroot'. injection Hroot' as <-.
  rewrite Hit in Hit'. injection Hit' as <-.
  unfold paths_to_pass in Hp. rewrite Hinc in Hp. injection Hp as Hp.
  cbn in Hp. split; [now symmetry|].
  destruct (run_check_context w params r Hr) as (_ & _ & [Hc|Hc]); [now left | right].
  rewrite Hc, <- Hp. now rewrite app_nil_r.
Qed.

Lemma X28_witness :
  checked_paths sample_nothing_left_result = [] /\
  (command sample_nothing_left_result = [] \/
   command sample_nothing_left_result
   = (fst (_build_pyright_argv sample_world) ++ ["--outputjson"]
      ++ extra_of sample_nothing_left)%list).
Proof.
  apply (X28_empty_expansion_passes_no_path sample_world sample_nothing_left
           ["pkg*"] (Path_of_str "/work/proj"));
    try reflexivity; vm_compute; reflexivity.
Defined.

(** X29: sorting the diagnostics is stable: when the output parses, the
    diagnostics of the result that share one file, start line and start
    character come in the order in which the report lists them. *)
Theorem X29_equal_keys_keep_report_order
  (w : World) (params : PyrightCheckParams) (r : CheckResult)
  (rc : Z) (out err : string) (parsed : pydict) (k : string * Z * Z) :
  run_check w params = Ok r ->
  command r <> [] ->
  subprocess_run w (command r) (Some (analyzed_root r)) (timeout_sec params)
  = Completed rc out err ->
  parse_pyright_json w out = Ok (Some parsed) ->
  exists items normalized,
    py_iter (py_or (dict_get_default parsed "generalDiagnostics" (PList []))
                   (PList [])) = Ok items /\
    mapM (_normalize_diag w) items = Ok normalized /\
    filter (has_key k) (diagnostics r) = filter (has_key k) normalized.
Proof.
  intros H Hcmd Hrun Hparse.
  destruct (run_check_outcome w params r _ H Hcmd Hrun) as (parsed' & Hp & Hr).
  rewrite Hparse in Hp. injection Hp as <-.
  destruct Hr as (items & normalized & Hi & Hm & Hd & _).
  exists items, normalized. repeat split; try assumption.
  rewrite Hd. apply (sort_diags_stable k).
Qed.

Lemma X29_witness :
  exists items normalized,
    py_iter (py_or (dict_get_default sample_parsed "generalDiagnostics" (PList []))
                   (PList [])) = Ok items /\
    mapM (_normalize_diag sample_world) items = Ok normalized /\
    filter (has_key ("/work/proj/b.py", 2, 0)) (diagnostics sample_result)
    = filter (has_key ("/work/proj/b.py", 2, 0)) normalized.
Proof.
  apply (X29_equal_keys_keep_report_order sample_world sample_request sample_result
           1 sample_report "" sample_parsed);
    [vm_compute; reflexivity | discriminate | reflexivity | vm_compute; reflexivity].
Defined.
